(** * The quiz session of the vocabulary client

    A shallow embedding of the [Quiz] component (the second module of
    [src/pages/AddWord.tsx]): its React state, the handlers that update
    it, the countdown effect and the calls it makes to the outside
    (toasts, the result submission, the status updates).

    The second part covers more of the same file: the clock, the
    buttons of the question screen, and the [AddWord] component's
    selection of extracted words.

    React state is a record; a handler is a computation that reads the
    variables of the render it was created in (its closure) and applies
    its [setX] calls to the latest state, emitting the outside calls it
    makes in order. *)

From stdpp Require Import gmap strings list.
From Stdlib Require Import ZArith Lia DecimalString.
From Stdlib Require DecimalPos DecimalZ.

Local Open Scope string_scope.
Local Open Scope list_scope.
Local Open Scope Z_scope.

(** ** Data model *)

Inductive QuestionType := Meaning | Synonyms | Antonyms | FillBlank.
Inductive QuizType := QMeaning | QSynonyms | QAntonyms | QFillBlank | QMixed.
Inductive StatusFilter := All | Learning | Reviewing | Mastered.

(** [interface QuizQuestion] *)
Module QuizQuestion.
Record t := mk {
  wordId : string;
  word : string;
  question : string;
  options : list string;
  correctAnswer : string;
  type : QuestionType
}.
End QuizQuestion.

(** [interface QuizResponse] *)
Module QuizResponse.
Record t := mk {
  questions : list QuizQuestion.t;
  totalQuestions : Z;
  quizType : string
}.
End QuizResponse.

(** [interface QuizResult] *)
Module QuizResult.
Record t := mk {
  wordId : string;
  selectedAnswer : string;
  correct : bool;
  correctAnswer : string;
  word : string;
  question : string
}.
End QuizResult.

(** What the handlers look at in a caught error:
    [error?.response?.data?.error]. *)
Record AxiosResponse := { status_code : Z; data_error : option string }.
Record AxiosError := { response : option AxiosResponse }.

(** The outcome of [await refetch()]: a result object whose [data] may
    be missing, or an exception. *)
Inductive RefetchOutcome :=
| Resolved (data : option QuizResponse.t)
| Rejected (e : AxiosError).

(** The [useState] variables of [Quiz], and [quizData] and [error], the
    [data] and [error] of the [useQuery] hook. [selectedAnswers] is an
    object used as a dictionary from word ids to answers: a finite map
    (property names inherited from the object prototype are not word
    ids). *)
Record QuizState := mkState {
  quizType : QuizType;
  questionCount : Z;
  status : StatusFilter;
  currentQuestionIndex : Z;
  selectedAnswers : gmap string string;
  showResults : bool;
  quizStarted : bool;
  timeLeft : Z;
  timerActive : bool;
  quizResults : list QuizResult.t;
  quizData : option QuizResponse.t;
  error : option AxiosError
}.

(** Calls that leave the component. *)
Inductive Effect :=
| ToastSuccess (msg : string)
| ToastError (msg : string)
| ConsoleError (msg : string)
| SubmitResults (results : list QuizResult.t) (qt : QuizType)
| AxiosPut (url : string) (new_status : string)
| InvalidateQueries (key : string).

(** ** JavaScript operators on strings and lookups *)

(** [o || d] where [o] is a possibly undefined string: the empty string
    is falsy. *)
Definition js_or (o : option string) (d : string) : string :=
  match o with
  | Some s => if String.eqb s "" then d else s
  | None => d
  end.

(** [o === s] where [o] is a possibly undefined string. *)
Definition js_eq (o : option string) (s : string) : bool :=
  match o with
  | Some a => String.eqb a s
  | None => false
  end.

(** Truthiness of a possibly undefined string. *)
Definition js_truthy (o : option string) : bool :=
  match o with
  | Some s => negb (String.eqb s "")
  | None => false
  end.

(** [`${n}`] for a length. *)
Definition string_of_nat (n : nat) : string :=
  NilZero.string_of_uint (Nat.to_uint n).

(** ** Handlers as computations

    [M A] applies state updates to the latest state and collects the
    outside calls. *)

Definition M (A : Type) : Type := QuizState -> A * QuizState * list Effect.

#[export] Instance M_ret : MRet M := fun A (a : A) s => (a, s, []).

#[export] Instance M_bind : MBind M := fun A B (k : A -> M B) (m : M A) s =>
  let '(a, s1, e1) := m s in
  let '(b, s2, e2) := k a s1 in
  (b, s2, e1 ++ e2).

Definition modify (f : QuizState -> QuizState) : M unit :=
  fun s => (tt, f s, []).

Definition emit (e : Effect) : M unit := fun s => (tt, s, [e]).

Definition gets {A} (f : QuizState -> A) : M A := fun s => (f s, s, []).

Definition emitAll (es : list Effect) : M unit := fun s => (tt, s, es).

(** The state reached and the calls made. *)
Definition exec {A} (m : M A) (s : QuizState) : QuizState * list Effect :=
  let '(_, s', es) := m s in (s', es).

(** The setters. A setter given a function receives the latest value. *)

Definition setCurrentQuestionIndex (f : Z -> Z) : M unit :=
  modify (fun s =>
    mkState (quizType s) (questionCount s) (status s)
      (f (currentQuestionIndex s)) (selectedAnswers s) (showResults s)
      (quizStarted s) (timeLeft s) (timerActive s) (quizResults s)
      (quizData s) (error s)).

Definition setSelectedAnswers
    (f : gmap string string -> gmap string string) : M unit :=
  modify (fun s =>
    mkState (quizType s) (questionCount s) (status s)
      (currentQuestionIndex s) (f (selectedAnswers s)) (showResults s)
      (quizStarted s) (timeLeft s) (timerActive s) (quizResults s)
      (quizData s) (error s)).

Definition setShowResults (b : bool) : M unit :=
  modify (fun s =>
    mkState (quizType s) (questionCount s) (status s)
      (currentQuestionIndex s) (selectedAnswers s) b
      (quizStarted s) (timeLeft s) (timerActive s) (quizResults s)
      (quizData s) (error s)).

Definition setQuizStarted (b : bool) : M unit :=
  modify (fun s =>
    mkState (quizType s) (questionCount s) (status s)
      (currentQuestionIndex s) (selectedAnswers s) (showResults s)
      b (timeLeft s) (timerActive s) (quizResults s)
      (quizData s) (error s)).

Definition setTimeLeft (f : Z -> Z) : M unit :=
  modify (fun s =>
    mkState (quizType s) (questionCount s) (status s)
      (currentQuestionIndex s) (selectedAnswers s) (showResults s)
      (quizStarted s) (f (timeLeft s)) (timerActive s) (quizResults s)
      (quizData s) (error s)).

Definition setTimerActive (b : bool) : M unit :=
  modify (fun s =>
    mkState (quizType s) (questionCount s) (status s)
      (currentQuestionIndex s) (selectedAnswers s) (showResults s)
      (quizStarted s) (timeLeft s) b (quizResults s)
      (quizData s) (error s)).

Definition setQuizResults (r : list QuizResult.t) : M unit :=
  modify (fun s =>
    mkState (quizType s) (questionCount s) (status s)
      (currentQuestionIndex s) (selectedAnswers s) (showResults s)
      (quizStarted s) (timeLeft s) (timerActive s) r
      (quizData s) (error s)).

(** The hook replaces its [data] when a fetch resolves. *)
Definition setQuizData (d : option QuizResponse.t) (s : QuizState) : QuizState :=
  mkState (quizType s) (questionCount s) (status s)
    (currentQuestionIndex s) (selectedAnswers s) (showResults s)
    (quizStarted s) (timeLeft s) (timerActive s) (quizResults s) d (error s).

(** The hook holds the error of a failed fetch and drops it when a
    fetch succeeds. *)
Definition setError (e : option AxiosError) (s : QuizState) : QuizState :=
  mkState (quizType s) (questionCount s) (status s)
    (currentQuestionIndex s) (selectedAnswers s) (showResults s)
    (quizStarted s) (timeLeft s) (timerActive s) (quizResults s) (quizData s) e.

(** [submitResultsMutation.mutate(results)]: the request carries the
    results and the quiz type. *)
Definition mutate (results : list QuizResult.t) : M unit :=
  fun s => (tt, s, [SubmitResults results (quizType s)]).

(** *** startQuiz *)

Definition no_questions_message : string :=
  "No questions available for the selected criteria".

Definition start_failed_message : string := "Failed to start quiz".

(** [axiosError?.response?.data?.error || 'Failed to start quiz'] *)
Definition errorMessage (e : AxiosError) : string :=
  js_or (match response e with
         | Some r => data_error r
         | None => None
         end) start_failed_message.

(** The part of [startQuiz] that runs once [await refetch()] settles. *)
Definition startQuiz_resume (o : RefetchOutcome) : M unit :=
  match o with
  | Resolved (Some d) =>
      if 0 <? Z.of_nat (length (QuizResponse.questions d)) then
        setQuizStarted true ;;
        setCurrentQuestionIndex (fun _ => 0) ;;
        setSelectedAnswers (fun _ => ∅) ;;
        setShowResults false ;;
        setTimeLeft (fun _ => Z.of_nat (length (QuizResponse.questions d)) * 30) ;;
        setTimerActive true
      else emit (ToastError no_questions_message)
  | Resolved None => emit (ToastError no_questions_message)
  | Rejected e =>
      emit (ConsoleError "Start quiz error:") ;;
      emit (ToastError (errorMessage e))
  end.

(** *** handleAnswerSelect *)

Definition handleAnswerSelect (questionId answer : string) : M unit :=
  setSelectedAnswers (fun prev => <[questionId := answer]> prev).

(** *** handleFinishQuiz

    [quizData] and [selectedAnswers] are the ones of the render [snap]
    the handler was created in. *)

Definition resultOf (answers : gmap string string) (q : QuizQuestion.t)
    : QuizResult.t :=
  QuizResult.mk
    (QuizQuestion.wordId q)
    (js_or (answers !! QuizQuestion.wordId q) "")
    (js_eq (answers !! QuizQuestion.wordId q) (QuizQuestion.correctAnswer q))
    (QuizQuestion.correctAnswer q)
    (QuizQuestion.word q)
    (QuizQuestion.question q).

Definition handleFinishQuiz (snap : QuizState) : M unit :=
  setTimerActive false ;;
  match quizData snap with
  | None => mret tt
  | Some d =>
      let results := map (resultOf (selectedAnswers snap)) (QuizResponse.questions d) in
      setQuizResults results ;;
      mutate results ;;
      setShowResults true
  end.

(** *** handleNextQuestion, handlePreviousQuestion *)

(** [quizData?.questions.length || 0] *)
Definition questionsLength (s : QuizState) : Z :=
  match quizData s with
  | Some d => Z.of_nat (length (QuizResponse.questions d))
  | None => 0
  end.

Definition handleNextQuestion (snap : QuizState) : M unit :=
  if currentQuestionIndex snap <? questionsLength snap - 1 then
    setCurrentQuestionIndex (fun prev => prev + 1)
  else handleFinishQuiz snap.

Definition handlePreviousQuestion (snap : QuizState) : M unit :=
  if 0 <? currentQuestionIndex snap then
    setCurrentQuestionIndex (fun prev => prev - 1)
  else mret tt.

(** *** resetQuiz *)

Definition resetQuiz : M unit :=
  setQuizStarted false ;;
  setCurrentQuestionIndex (fun _ => 0) ;;
  setSelectedAnswers (fun _ => ∅) ;;
  setShowResults false ;;
  setTimeLeft (fun _ => 0) ;;
  setTimerActive false ;;
  setQuizResults [].

(** *** markWordsForReview

    [put_ok i] tells whether the [i]-th status update succeeds. All the
    requests are created by the [map] before [Promise.all] waits for
    them. *)

Definition incorrectWords (s : QuizState) : list string :=
  map QuizResult.wordId
    (List.filter (fun result => negb (QuizResult.correct result)) (quizResults s)).

Definition putReviewing (wordId : string) : Effect :=
  AxiosPut ("/vocabulary/" +:+ wordId) "reviewing".

Definition nothing_to_mark_message : string := "No words to mark for review!".

Definition mark_failed_message : string := "Failed to mark words for review".

Definition markWordsForReview (put_ok : nat -> bool) (snap : QuizState) : M unit :=
  let incorrect := incorrectWords snap in
  if Nat.eqb (length incorrect) 0 then
    emit (ToastSuccess nothing_to_mark_message)
  else
    emitAll (map putReviewing incorrect) ;;
    if forallb put_ok (seq 0 (length incorrect)) then
      emit (ToastSuccess (string_of_nat (length incorrect) +:+ " words marked for review!")) ;;
      emit (InvalidateQueries "vocabulary") ;;
      emit (InvalidateQueries "vocabularyStats")
    else emit (ToastError mark_failed_message).

(** *** The countdown

    The callback given to [setInterval]: the updater receives the latest
    [timeLeft]; [handleFinishQuiz] is the one of the render [snap] in
    which the effect installed the interval. *)

Definition timerTick (snap : QuizState) : M unit :=
  prev ← gets timeLeft;
  if prev <=? 1 then
    setTimerActive false ;;
    handleFinishQuiz snap ;;
    setTimeLeft (fun _ => 0)
  else setTimeLeft (fun _ => prev - 1).

(** ** What is rendered *)

(** [quizData.questions[currentQuestionIndex]] *)
Definition currentQuestion (s : QuizState) : option QuizQuestion.t :=
  match quizData s with
  | Some d =>
      if currentQuestionIndex s <? 0 then None
      else QuizResponse.questions d !! Z.to_nat (currentQuestionIndex s)
  | None => None
  end.

(** What the server said in the response of a failed request, if
    anything: [error?.response?.data?.error]. *)
Definition serverError (e : AxiosError) : option string :=
  match response e with
  | Some r => data_error r
  | None => None
  end.

(** [axiosError?.response?.status === 404] *)
Definition is404Error (e : AxiosError) : bool :=
  match response e with
  | Some r => status_code r =? 404
  | None => false
  end.

(** The heading and the paragraph of the error page. *)
Definition errorHeading (e : AxiosError) : string :=
  if is404Error e then "No words available for quiz" else "Error loading quiz".

Definition errorParagraph (e : AxiosError) : string :=
  if is404Error e
  then "You need to add some vocabulary words before you can take a quiz."
  else js_or (serverError e) "Failed to load quiz".

(** The branches of the render, in its order: the error page when the
    hook holds an error, the configuration screen, the spinner, and the
    question screen, over which the results are laid when [showResults]
    is set. *)
Inductive View :=
| ConfigView
| SpinnerView
| QuestionView (q : QuizQuestion.t) (results_shown : bool)
| ErrorView (heading paragraph : string).

Definition render (s : QuizState) : View :=
  match error s with
  | Some e => ErrorView (errorHeading e) (errorParagraph e)
  | None =>
      if negb (quizStarted s) then ConfigView
      else match currentQuestion s with
           | None => SpinnerView
           | Some q => QuestionView q (showResults s)
           end
  end.

(** [hasAnswered] and [isLastQuestion] of the render. *)
Definition hasAnswered (s : QuizState) (q : QuizQuestion.t) : bool :=
  js_truthy (selectedAnswers s !! QuizQuestion.wordId q).

Definition isLastQuestion (s : QuizState) : bool :=
  currentQuestionIndex s =? questionsLength s - 1.

(** The Next button: [disabled={!hasAnswered || isLastQuestion}]. *)
Definition nextDisabled (s : QuizState) (q : QuizQuestion.t) : bool :=
  negb (hasAnswered s q) || isLastQuestion s.

(** The Previous button: [disabled={currentQuestionIndex === 0}]. *)
Definition previousDisabled (s : QuizState) : bool :=
  currentQuestionIndex s =? 0.

(** A click on Next: a disabled or absent button calls nothing. *)
Definition clickNext (s : QuizState) : M unit :=
  match render s with
  | QuestionView q _ =>
      if nextDisabled s q then mret tt else handleNextQuestion s
  | _ => mret tt
  end.

Definition clickPrevious (s : QuizState) : M unit :=
  match render s with
  | QuestionView _ _ =>
      if previousDisabled s then mret tt else handlePreviousQuestion s
  | _ => mret tt
  end.

(** ** The component in time

    [current] is the latest state, [interval] the render whose effect
    installed the live interval (none when no interval is set),
    [calls] the outside calls made so far, [pending] the number of
    [startQuiz] calls still waiting for their fetch.

    The query library (react-query, with the options the component
    gives and a plain query client) is not part of the sources. Of it
    the model takes this. A fetch that succeeds makes [await refetch()]
    resolve with the fetched [data], which becomes [quizData], and
    clears the hook's [error]. A fetch that fails does not make
    [refetch()] throw: it resolves with the result the hook then holds,
    whose [data] is the [quizData] kept from before and whose [error]
    is the failure. A [refetch()] that throws, for which [startQuiz] has
    its [catch], is kept as an outcome of its own. The three
    configuration setters are left out. *)

Record World := mkWorld {
  current : QuizState;
  interval : option QuizState;
  calls : list Effect;
  pending : nat
}.

(** The timer effect has the dependencies [[timerActive, timeLeft]]:
    when one of them changed, the old interval is cleared and a new one
    is set if [timerActive && timeLeft > 0]. *)
Definition timerEffect (old new : QuizState) (i : option QuizState)
    : option QuizState :=
  if bool_decide (timerActive old = timerActive new ∧ timeLeft old = timeLeft new)
  then i
  else if timerActive new && (0 <? timeLeft new) then Some new else None.

(** What can happen to the component: [startQuiz] is called and waits,
    its fetch settles, a handler is called, a button is clicked, the
    interval fires. *)
Inductive Event :=
| StartQuiz
| FetchSettled (o : RefetchOutcome)
| AnswerSelect (questionId answer : string)
| NextQuestion
| PreviousQuestion
| ClickNext
| ClickPrevious
| FinishQuiz
| ResetQuiz
| MarkWordsForReview (put_ok : nat -> bool)
| Tick
| FetchFailed (e : AxiosError).

(** Commit the outcome of a callback: new state, effect, calls. *)
Definition commit (w : World) (r : QuizState * list Effect) : World :=
  mkWorld (fst r) (timerEffect (current w) (fst r) (interval w))
    (calls w ++ snd r) (pending w).

(** A handler run from the screen is the one of the latest render. *)
Definition step (w : World) (e : Event) : World :=
  let s := current w in
  match e with
  | StartQuiz => mkWorld s (interval w) (calls w) (S (pending w))
  | FetchSettled o =>
      let s1 := match o with
                | Resolved data => setError None (setQuizData data s)
                | Rejected e => setError (Some e) s
                end in
      let w1 := commit w (exec (startQuiz_resume o) s1) in
      mkWorld (current w1) (interval w1) (calls w1) (Nat.pred (pending w))
  | FetchFailed e =>
      let s1 := setError (Some e) s in
      let w1 := commit w (exec (startQuiz_resume (Resolved (quizData s))) s1) in
      mkWorld (current w1) (interval w1) (calls w1) (Nat.pred (pending w))
  | AnswerSelect questionId answer =>
      commit w (exec (handleAnswerSelect questionId answer) s)
  | NextQuestion => commit w (exec (handleNextQuestion s) s)
  | PreviousQuestion => commit w (exec (handlePreviousQuestion s) s)
  | ClickNext => commit w (exec (clickNext s) s)
  | ClickPrevious => commit w (exec (clickPrevious s) s)
  | FinishQuiz => commit w (exec (handleFinishQuiz s) s)
  | ResetQuiz => commit w (exec resetQuiz s)
  | MarkWordsForReview put_ok => commit w (exec (markWordsForReview put_ok s) s)
  | Tick =>
      match interval w with
      | Some snap => commit w (exec (timerTick snap) s)
      | None => w
      end
  end.

Definition run (w : World) (es : list Event) : World := fold_left step es w.

(** The component when it mounts. *)
Definition initialState : QuizState :=
  mkState QMeaning 10 All 0 ∅ false false 0 false [] None None.

Definition initialWorld : World := mkWorld initialState None [] 0.

(** The states of the session in terms of the component. *)
Inductive Phase := Configuring | Loading | InProgress | Finished.

Definition phase (w : World) : Phase :=
  if quizStarted (current w) then
    if showResults (current w) then Finished else InProgress
  else if Nat.ltb 0 (pending w) then Loading else Configuring.

(** ** States written out

    The states the handlers lead to, as records, for the statements
    below. *)

(** After [handleFinishQuiz] with a question list. *)
Definition finishedState (results : list QuizResult.t) (s : QuizState) : QuizState :=
  mkState (quizType s) (questionCount s) (status s)
    (currentQuestionIndex s) (selectedAnswers s) true
    (quizStarted s) (timeLeft s) false results (quizData s) (error s).

(** After [handleFinishQuiz] without one. *)
Definition timerStopped (s : QuizState) : QuizState :=
  mkState (quizType s) (questionCount s) (status s)
    (currentQuestionIndex s) (selectedAnswers s) (showResults s)
    (quizStarted s) (timeLeft s) false (quizResults s) (quizData s) (error s).

(** The list [handleFinishQuiz] builds from the render [snap]. *)
Definition computeResults (snap : QuizState) (d : QuizResponse.t) : list QuizResult.t :=
  map (resultOf (selectedAnswers snap)) (QuizResponse.questions d).

(** After a successful [startQuiz] with [n] questions. *)
Definition startedState (n : Z) (s : QuizState) : QuizState :=
  mkState (quizType s) (questionCount s) (status s) 0 ∅ false true
    (n * 30) true (quizResults s) (quizData s) (error s).

(** After [resetQuiz]. *)
Definition resetState (s : QuizState) : QuizState :=
  mkState (quizType s) (questionCount s) (status s) 0 ∅ false false
    0 false [] (quizData s) (error s).

(** After [handleAnswerSelect]. *)
Definition answeredState (questionId answer : string) (s : QuizState) : QuizState :=
  mkState (quizType s) (questionCount s) (status s)
    (currentQuestionIndex s) (<[questionId := answer]> (selectedAnswers s))
    (showResults s) (quizStarted s) (timeLeft s) (timerActive s)
    (quizResults s) (quizData s) (error s).

(** After a move to index [i]. *)
Definition movedTo (i : Z) (s : QuizState) : QuizState :=
  mkState (quizType s) (questionCount s) (status s) i (selectedAnswers s)
    (showResults s) (quizStarted s) (timeLeft s) (timerActive s)
    (quizResults s) (quizData s) (error s).

(** ** Predicates of the statements *)

(** The interval follows the timer state: a live interval belongs to a
    render with the current [timerActive] and [timeLeft], the flag set
    and time left; without interval the flag is off or no time is
    left. *)
Definition wf (w : World) : Prop :=
  match interval w with
  | Some snap =>
      timerActive snap = true /\ 0 < timeLeft snap /\
      timerActive (current w) = true /\ timeLeft (current w) = timeLeft snap
  | None => timerActive (current w) && (0 <? timeLeft (current w)) = false
  end.

(** The outcomes that start no session: an empty list, no data, an
    exception. *)
Definition startFails (o : RefetchOutcome) : Prop :=
  match o with
  | Resolved (Some d) => QuizResponse.questions d = []
  | Resolved None => True
  | Rejected _ => True
  end.

(** What a handler leaves alone: the answers and the question list. *)
Definition keeps_answers (m : M unit) : Prop :=
  forall s, selectedAnswers (fst (exec m s)) = selectedAnswers s /\
            quizData (fst (exec m s)) = quizData s.


(** Kinds of calls. *)
Definition isSubmit (e : Effect) : bool :=
  match e with SubmitResults _ _ => true | _ => false end.

Definition isPut (e : Effect) : bool :=
  match e with AxiosPut _ _ => true | _ => false end.

Definition isToast (e : Effect) : bool :=
  match e with ToastSuccess _ | ToastError _ => true | _ => false end.

(** The result submissions among the calls. *)
Definition submissions (es : list Effect) : list Effect := List.filter isSubmit es.

(** The status updates [markWordsForReview] sends. *)
Definition reviewRequests (s : QuizState) : list Effect :=
  map putReviewing (incorrectWords s).

(** ** Sample data *)

Definition sampleQuestion (id answer : string) : QuizQuestion.t :=
  QuizQuestion.mk id ("word-" +:+ id) ("What does " +:+ id +:+ " mean?")
    [answer; "other"] answer Meaning.

Definition sampleResponse (qs : list QuizQuestion.t) : QuizResponse.t :=
  QuizResponse.mk qs (Z.of_nat (length qs)) "meaning".

Definition twoQuestions : QuizResponse.t :=
  sampleResponse [sampleQuestion "w1" "a1"; sampleQuestion "w2" "a2"].

Definition fiveQuestions : QuizResponse.t :=
  sampleResponse
    [sampleQuestion "w1" "a1"; sampleQuestion "w2" "a2"; sampleQuestion "w3" "a3";
     sampleQuestion "w4" "a4"; sampleQuestion "w5" "a5"].

Definition emptyResponse : QuizResponse.t := sampleResponse [].

(** A question whose correct answer is the empty string. *)
Definition blankQuestion : QuizQuestion.t :=
  QuizQuestion.mk "w0" "word" "Complete the sentence" [""; "x"] "" FillBlank.

(** A failure without a response, as when the network is down. *)
Definition networkError : AxiosError := {| response := None |}.

(** Sessions in progress with one and with two questions. *)
Definition started1 : World :=
  run initialWorld
    [StartQuiz; FetchSettled (Resolved (Some (sampleResponse [sampleQuestion "w1" "a1"])))].

Definition started2 : World :=
  run initialWorld [StartQuiz; FetchSettled (Resolved (Some twoQuestions))].

(** The two-question session finished with nothing answered. *)
Definition twoWrong : QuizState := current (run started2 [FinishQuiz]).

(** ** The buttons of the question screen

    The option buttons of the current question, the Finish and Reset
    buttons, the Mark button of the results, and the interval. A button
    that is not rendered calls nothing. *)

(** [onClick={() => handleAnswerSelect(currentQuestion.wordId, option)}]
    on the [i]-th option. *)
Definition clickOption (s : QuizState) (i : nat) : M unit :=
  match render s with
  | QuestionView q _ =>
      match QuizQuestion.options q !! i with
      | Some option => handleAnswerSelect (QuizQuestion.wordId q) option
      | None => mret tt
      end
  | _ => mret tt
  end.

(** The Mark button is part of the results and rendered when
    [quizResults.some(result => !result.correct)]. *)
Definition markButtonShown (s : QuizState) : bool :=
  match render s with
  | QuestionView _ true =>
      existsb (fun result => negb (QuizResult.correct result)) (quizResults s)
  | _ => false
  end.

Definition clickMark (put_ok : nat -> bool) (s : QuizState) : M unit :=
  if markButtonShown s then markWordsForReview put_ok s else mret tt.

Inductive Click :=
| OptionClick (i : nat)
| NextClick
| PreviousClick
| FinishClick
| ResetClick
| MarkClick (put_ok : nat -> bool)
| IntervalFires.

Definition click (w : World) (c : Click) : World :=
  let s := current w in
  match c with
  | OptionClick i => commit w (exec (clickOption s i) s)
  | NextClick => step w ClickNext
  | PreviousClick => step w ClickPrevious
  | FinishClick =>
      match render s with
      | QuestionView _ _ => step w FinishQuiz
      | _ => w
      end
  | ResetClick =>
      match render s with
      | QuestionView _ _ => step w ResetQuiz
      | _ => w
      end
  | MarkClick put_ok => commit w (exec (clickMark put_ok s) s)
  | IntervalFires => step w Tick
  end.

Definition clicks (w : World) (cs : list Click) : World := fold_left click cs w.

(** The counter of the question screen:
    [Object.keys(selectedAnswers).length] of [quizData.questions.length]. *)
Definition answeredCount (s : QuizState) : nat := size (selectedAnswers s).

(** Every recorded answer belongs to a question of the list. *)
Definition answersWithin (s : QuizState) : Prop :=
  forall k, is_Some (selectedAnswers s !! k) ->
    exists d q, quizData s = Some d /\ q ∈ QuizResponse.questions d /\
                QuizQuestion.wordId q = k.

(** The index points at a question. *)
Definition inRange (s : QuizState) : Prop :=
  0 <= currentQuestionIndex s < questionsLength s.

(** How one event may move the index: not at all, one up below the
    last question, one down above the first, or back to the first; the
    question list stays. *)
Definition indexStep (s s' : QuizState) : Prop :=
  quizData s' = quizData s /\
  (currentQuestionIndex s' = currentQuestionIndex s \/
   (currentQuestionIndex s' = currentQuestionIndex s + 1 /\
    currentQuestionIndex s < questionsLength s - 1) \/
   (currentQuestionIndex s' = currentQuestionIndex s - 1 /\
    0 < currentQuestionIndex s) \/
   currentQuestionIndex s' = 0).

(** Time and index are not negative. *)
Definition nonNegative (s : QuizState) : Prop :=
  0 <= timeLeft s /\ 0 <= currentQuestionIndex s.

Definition isFetch (e : Event) : bool :=
  match e with FetchSettled _ | FetchFailed _ => true | _ => false end.

(** The questions that are not answered correctly in [answers]. *)
Definition missed (answers : gmap string string) (d : QuizResponse.t)
    : list QuizQuestion.t :=
  List.filter
    (fun q => negb (js_eq (answers !! QuizQuestion.wordId q) (QuizQuestion.correctAnswer q)))
    (QuizResponse.questions d).

(** *** formatTime *)

(** [n.toString()] for an integer. *)
Definition string_of_Z (z : Z) : string := NilZero.string_of_int (Z.to_int z).

(** [s.padStart(n, '0')] *)
Definition padStart0 (n : nat) (s : string) : string :=
  String.concat "" (repeat "0" (n - String.length s)) +:+ s.

(** [Math.floor(seconds / 60)] is the quotient rounded down, [%] the
    remainder with the sign of the dividend. *)
Definition formatTime (seconds : Z) : string :=
  let mins := seconds / 60 in
  let secs := Z.rem seconds 60 in
  string_of_Z mins +:+ ":" +:+ padStart0 2 (string_of_Z secs).

(** The seconds of the minute as the clock shows them. *)
Definition secondsField (r : nat) : string := padStart0 2 (string_of_Z (Z.of_nat r)).

(** * The word page

    The [AddWord] component of the same file: the words extracted from
    a text or a file, their selection, the bulk request, and the
    synonym and antonym rows of the form. JavaScript numbers are
    carried in the extracted words and never inspected by the code
    modelled here, so their type is left open. *)

Module AddWord.
Section WithNumbers.
Context {number : Type}.

(** [interface ExtractedWord] *)
Record ExtractedWord := mkWord {
  word : string;
  meaning : string;
  example : string;
  synonyms : list string;
  antonyms : list string;
  partOfSpeech : option string;
  pronunciation : option string;
  difficultyScore : option number;
  difficulty : option string;
  frequency : option number;
  count : option number
}.

Inductive InputMethod := Manual | Text | Pdf | Image | Voice.

(** The [useState] variables of [AddWord]. *)
Record State := mkState {
  inputMethod : InputMethod;
  isProcessing : bool;
  isFetchingWord : bool;
  autoFillSuccess : bool;
  extractedWords : list ExtractedWord;
  selectedWords : gset string;
  textInput : string;
  difficultyFilter : string;
  isBulkAdding : bool
}.

Inductive Call :=
| ToastSuccess (msg : string)
| ToastError (msg : string)
| BulkCreate (words : list ExtractedWord)
| InvalidateQueries (key : string)
| Navigate (path : string).

Definition A (X : Type) : Type := State -> X * State * list Call.

#[export] Instance A_ret : MRet A := fun X (x : X) s => (x, s, []).

#[export] Instance A_bind : MBind A := fun X Y (k : X -> A Y) (m : A X) s =>
  let '(x, s1, c1) := m s in
  let '(y, s2, c2) := k x s1 in
  (y, s2, c1 ++ c2).

Definition call (c : Call) : A unit := fun s => (tt, s, [c]).

Definition exec {X} (m : A X) (s : State) : State * list Call :=
  let '(_, s', cs) := m s in (s', cs).

Definition setIsProcessing (b : bool) : A unit := fun s =>
  (tt, mkState (inputMethod s) b (isFetchingWord s) (autoFillSuccess s)
         (extractedWords s) (selectedWords s) (textInput s) (difficultyFilter s)
         (isBulkAdding s), []).

Definition setExtractedWords (ws : list ExtractedWord) : A unit := fun s =>
  (tt, mkState (inputMethod s) (isProcessing s) (isFetchingWord s) (autoFillSuccess s)
         ws (selectedWords s) (textInput s) (difficultyFilter s) (isBulkAdding s), []).

Definition setSelectedWords (sel : gset string) : A unit := fun s =>
  (tt, mkState (inputMethod s) (isProcessing s) (isFetchingWord s) (autoFillSuccess s)
         (extractedWords s) sel (textInput s) (difficultyFilter s) (isBulkAdding s), []).

Definition setDifficultyFilter (f : string) : A unit := fun s =>
  (tt, mkState (inputMethod s) (isProcessing s) (isFetchingWord s) (autoFillSuccess s)
         (extractedWords s) (selectedWords s) (textInput s) f (isBulkAdding s), []).

Definition setIsBulkAdding (b : bool) : A unit := fun s =>
  (tt, mkState (inputMethod s) (isProcessing s) (isFetchingWord s) (autoFillSuccess s)
         (extractedWords s) (selectedWords s) (textInput s) (difficultyFilter s) b, []).

(** [toggleWordSelection]: a copy of the selection of the render, with
    the word taken out if it is in and put in if it is not. *)
Definition toggleWordSelection (snap : State) (w : string) : A unit :=
  let newSelected :=
    if bool_decide (w ∈ selectedWords snap)
    then selectedWords snap ∖ {[w]}
    else selectedWords snap ∪ {[w]} in
  setSelectedWords newSelected.

Definition selectAllWords (snap : State) : A unit :=
  let allWords := map word (extractedWords snap) in
  setSelectedWords (list_to_set allWords).

Definition deselectAllWords : A unit := setSelectedWords ∅.

Definition select_one_message : string := "Please select at least one word".

Definition no_words_message : string := "No words to add".

Definition addSelectedWords (snap : State) : A unit :=
  let selectedWordObjects :=
    List.filter (fun w => bool_decide (word w ∈ selectedWords snap)) (extractedWords snap) in
  if Nat.eqb (length selectedWordObjects) 0 then call (ToastError select_one_message)
  else setIsBulkAdding true ;; call (BulkCreate selectedWordObjects).

Definition addAllWords (snap : State) : A unit :=
  if Nat.eqb (length (extractedWords snap)) 0 then call (ToastError no_words_message)
  else setIsBulkAdding true ;; call (BulkCreate (extractedWords snap)).

(** [filteredWords] *)
Definition filteredWords (s : State) : list ExtractedWord :=
  List.filter
    (fun w => if String.eqb (difficultyFilter s) "all" then true
              else js_eq (difficulty w) (difficultyFilter s))
    (extractedWords s).

(** What follows the request in [processText], [onPdfDrop] and
    [onImageDrop], which differ in the message of a failure without
    server text. *)
Inductive Extraction :=
| Extracted (ws : list ExtractedWord)
| ExtractionFailed (e : AxiosError).

Definition extraction_resume (fallback : string) (o : Extraction) : A unit :=
  match o with
  | Extracted ws =>
      setExtractedWords ws ;;
      setSelectedWords ∅ ;;
      call (ToastSuccess ("Found " +:+ string_of_nat (length ws) +:+ " new words"))
  | ExtractionFailed e => call (ToastError (js_or (serverError e) fallback))
  end ;;
  setIsProcessing false.

Definition processText_resume := extraction_resume "Failed to process text".
Definition onPdfDrop_resume := extraction_resume "Failed to process PDF".
Definition onImageDrop_resume := extraction_resume "Failed to process image".

(** [onSuccess] and [onError] of [bulkCreateMutation]; [n] is
    [data.entries.length]. *)
Definition bulkCreate_onSuccess (n : nat) : A unit :=
  call (InvalidateQueries "vocabulary") ;;
  call (InvalidateQueries "vocabularyStats") ;;
  call (InvalidateQueries "recentWords") ;;
  call (ToastSuccess (string_of_nat n +:+ " words added successfully!")) ;;
  setExtractedWords [] ;;
  setSelectedWords ∅ ;;
  call (Navigate "/vocabulary").

Definition bulkCreate_onError (e : AxiosError) : A unit :=
  call (ToastError (js_or (serverError e) "Failed to add words")).

(** The card of the extracted words is rendered when there are some.
    [Add Selected] has [disabled={selectedWords.size === 0 || isBulkAdding}],
    [Add All Words] has [disabled={isBulkAdding}]; the grid has one
    toggle per filtered word. *)
Definition cardShown (s : State) : bool :=
  negb (Nat.eqb (length (extractedWords s)) 0).

Definition addSelectedDisabled (s : State) : bool :=
  Nat.eqb (size (selectedWords s)) 0 || isBulkAdding s.

Definition addAllDisabled (s : State) : bool := isBulkAdding s.

Inductive Event :=
| ToggleCard (i : nat)
| SelectAll
| DeselectAll
| AddSelected
| AddAll
| SetFilter (f : string)
| ExtractionSettled (fallback : string) (o : Extraction)
| BulkSucceeded (n : nat)
| BulkFailed (e : AxiosError).

Definition handler (s : State) (e : Event) : A unit :=
  match e with
  | ToggleCard i =>
      if cardShown s then
        match filteredWords s !! i with
        | Some w => toggleWordSelection s (word w)
        | None => mret tt
        end
      else mret tt
  | SelectAll => if cardShown s then selectAllWords s else mret tt
  | DeselectAll => if cardShown s then deselectAllWords else mret tt
  | AddSelected =>
      if cardShown s && negb (addSelectedDisabled s) then addSelectedWords s else mret tt
  | AddAll =>
      if cardShown s && negb (addAllDisabled s) then addAllWords s else mret tt
  | SetFilter f => if cardShown s then setDifficultyFilter f else mret tt
  | ExtractionSettled fallback o => extraction_resume fallback o
  | BulkSucceeded n => bulkCreate_onSuccess n
  | BulkFailed e => bulkCreate_onError e
  end.

(** The state and the calls so far. *)
Definition step (p : State * list Call) (e : Event) : State * list Call :=
  let '(s', cs) := exec (handler (fst p) e) (fst p) in (s', snd p ++ cs).

Definition run (p : State * list Call) (es : list Event) : State * list Call :=
  fold_left step es p.

Definition initialState : State :=
  mkState Manual false false false [] ∅ "" "all" false.

Definition isBulkCreate (c : Call) : bool :=
  match c with BulkCreate _ => true | _ => false end.

(** Every selected word is the word of an extracted entry. *)
Definition selectionWithin (s : State) : Prop :=
  forall w, w ∈ selectedWords s -> w ∈ map word (extractedWords s).

(** *** The synonym and antonym rows

    [currentSynonyms] is the value the form holds; the functions give
    the value they set. *)

Definition addSynonym (currentSynonyms : list string) : list string :=
  currentSynonyms ++ [""].

(** [currentSynonyms.filter((_, i) => i !== index)] *)
Definition removeSynonym (index : nat) (currentSynonyms : list string) : list string :=
  map snd (List.filter (fun p => negb (Nat.eqb (fst p) index))
             (imap (fun i x => (i, x)) currentSynonyms)).

Definition addAntonym (currentAntonyms : list string) : list string :=
  currentAntonyms ++ [""].

Definition removeAntonym (index : nat) (currentAntonyms : list string) : list string :=
  map snd (List.filter (fun p => negb (Nat.eqb (fst p) index))
             (imap (fun i x => (i, x)) currentAntonyms)).

End WithNumbers.

Arguments ExtractedWord : clear implicits.
Arguments State : clear implicits.
Arguments Call : clear implicits.
Arguments Extraction : clear implicits.
Arguments Event : clear implicits.

(** Sample words, with numbers as integers. *)
Definition sampleWord (w : string) (d : string) : ExtractedWord Z :=
  mkWord w ("meaning of " +:+ w) "" [] [] None None None (Some d) None None.

Definition sampleState : State Z :=
  mkState Text false false false
    [sampleWord "abate" "easy"; sampleWord "zeal" "difficult"; sampleWord "abate" "easy"]
    ∅ "" "all" false.

End AddWord.

(** * Properties *)

Example started2_phase : phase started2 = InProgress.
Proof. reflexivity. Qed.

Example started2_time : timeLeft (current started2) = 60.
Proof. reflexivity. Qed.

(** ** Reasoning about computations *)

Ltac unfold_m :=
  unfold exec, clickNext, clickPrevious, timerTick, startQuiz_resume,
    handleAnswerSelect, handleNextQuestion, handlePreviousQuestion,
    handleFinishQuiz, resetQuiz, markWordsForReview, mutate,
    setCurrentQuestionIndex, setSelectedAnswers, setShowResults,
    setQuizStarted, setTimeLeft, setTimerActive, setQuizResults,
    gets, emit, emitAll, modify, mbind, M_bind, mret, M_ret in *.

Ltac run_m := unfold_m; cbn [fst snd app] in *.

Lemma current_commit w r : current (commit w r) = fst r.
Proof. reflexivity. Qed.

Lemma calls_commit w r : calls (commit w r) = calls w ++ snd r.
Proof. reflexivity. Qed.

Lemma timerEffect_same old new i :
  timerActive old = timerActive new -> timeLeft old = timeLeft new ->
  timerEffect old new i = i.
Proof.
  intros Ha Ht. unfold timerEffect. rewrite bool_decide_eq_true_2; [reflexivity|].
  split; assumption.
Qed.

Lemma exec_finish_some snap s d :
  quizData snap = Some d ->
  exec (handleFinishQuiz snap) s =
    (finishedState (computeResults snap d) s,
     [SubmitResults (computeResults snap d) (quizType s)]).
Proof. intros H. run_m. rewrite H. reflexivity. Qed.

Lemma exec_finish_none snap s :
  quizData snap = None ->
  exec (handleFinishQuiz snap) s = (timerStopped s, []).
Proof. intros H. run_m. rewrite H. reflexivity. Qed.

Lemma finish_timer_off snap s :
  timerActive (fst (exec (handleFinishQuiz snap) s)) = false.
Proof.
  destruct (quizData snap) as [d|] eqn:H.
  - rewrite (exec_finish_some _ _ _ H). reflexivity.
  - rewrite (exec_finish_none _ _ H). reflexivity.
Qed.

(** ** The interval follows the timer state *)

Lemma wf_initial : wf initialWorld.
Proof. reflexivity. Qed.

Lemma wf_commit w r : wf w -> wf (commit w r).
Proof.
  unfold wf, commit, timerEffect. cbn [interval current].
  intros Hw. case_bool_decide as Hd.
  - destruct Hd as [Ha Ht]. destruct (interval w) as [snap|].
    + rewrite <- Ha, <- Ht. exact Hw.
    + rewrite <- Ha, <- Ht. exact Hw.
  - destruct (timerActive (fst r)) eqn:Ha; cbn [andb].
    + destruct (0 <? timeLeft (fst r)) eqn:Ht.
      * apply Z.ltb_lt in Ht. auto.
      * reflexivity.
    + reflexivity.
Qed.

Lemma wf_step w e : wf w -> wf (step w e).
Proof.
  intros Hw. destruct e as [ | o | id a | | | | | | | ok | | err ]; cbn [step];
    try (apply wf_commit; exact Hw).
  - exact Hw.
  - destruct (interval w) eqn:Hi; [apply wf_commit|]; exact Hw.
Qed.

Lemma wf_run es : forall w, wf w -> wf (run w es).
Proof.
  induction es as [|e es IH]; intros w Hw; [exact Hw|].
  apply IH, wf_step, Hw.
Qed.

(** With the timer flag off there is no interval, and a tick finds
    nothing to run. *)
Lemma inactive_no_interval w :
  wf w -> timerActive (current w) = false -> interval w = None.
Proof.
  unfold wf. destruct (interval w); [|reflexivity].
  intros (_ & _ & Ha & _) Hf. congruence.
Qed.

Lemma tick_inactive w :
  wf w -> timerActive (current w) = false -> step w Tick = w.
Proof.
  intros Hw Hf. cbn [step]. rewrite (inactive_no_interval w Hw Hf). reflexivity.
Qed.

(** ** Finishing *)

Lemma finished_again results s :
  finishedState results (finishedState results s) = finishedState results s.
Proof. reflexivity. Qed.

Lemma timerStopped_again s : timerStopped (timerStopped s) = timerStopped s.
Proof. reflexivity. Qed.

(** A tick of a live interval at one second left finishes the quiz. *)
Lemma tick_expiry_timer_off snap s :
  timeLeft s <= 1 ->
  timerActive (fst (exec (timerTick snap) s)) = false.
Proof.
  intros Hle. run_m.
  destruct (timeLeft s <=? 1) eqn:E; [|apply Z.leb_gt in E; lia].
  destruct (quizData snap); reflexivity.
Qed.

(** C1, as stated, fails: a second [finish()] is not a no-op. After an
    explicit finish, and after a finish by the timer reaching zero, one
    more finish submits the result a second time. *)
Lemma finish_twice_submits_twice :
  phase (run started2 [FinishQuiz]) = Finished /\
  length (submissions (calls (run started2 [FinishQuiz]))) = 1%nat /\
  length (submissions (calls (run started2 [FinishQuiz; FinishQuiz]))) = 2%nat /\
  phase (run started1 (repeat Tick 30)) = Finished /\
  length (submissions (calls (run started1 (repeat Tick 30)))) = 1%nat /\
  length (submissions (calls (run started1 (repeat Tick 30 ++ [FinishQuiz])))) = 2%nat.
Proof. vm_compute. repeat split; reflexivity. Qed.

(** C1, amended: [finish()] has no guard. Once the session has finished,
    by [finish()] or by the timer reaching zero, the timer flag is off
    and the interval is cleared, so a later tick does nothing; a
    repeated [finish()] leaves the session state as it is, and, when a
    question list is loaded, every [finish()] submits the result
    again. *)
Theorem finish_stops_timer_but_resubmits (w : World) :
  wf w ->
  let w1 := step w FinishQuiz in
  (timerActive (current w1) = false /\ step w1 Tick = w1) /\
  (forall snap, interval w = Some snap -> timeLeft (current w) <= 1 ->
     timerActive (current (step w Tick)) = false /\
     step (step w Tick) Tick = step w Tick) /\
  current (step w1 FinishQuiz) = current w1 /\
  (forall d, quizData (current w) = Some d ->
     calls w1 = calls w ++
       [SubmitResults (computeResults (current w) d) (quizType (current w))] /\
     calls (step w1 FinishQuiz) = calls w1 ++
       [SubmitResults (computeResults (current w) d) (quizType (current w))]).
Proof.
  intros Hw w1.
  assert (Hoff : timerActive (current w1) = false).
  { subst w1. cbn [step]. rewrite current_commit. apply finish_timer_off. }
  split; [split; [exact Hoff|]|split; [|split]].
  - apply tick_inactive; [apply wf_step; exact Hw|exact Hoff].
  - intros snap Hi Hle.
    assert (Hoff' : timerActive (current (step w Tick)) = false).
    { cbn [step]. rewrite Hi, current_commit. apply tick_expiry_timer_off, Hle. }
    split; [exact Hoff'|].
    apply tick_inactive; [apply wf_step; exact Hw|exact Hoff'].
  - subst w1. cbn [step]. rewrite !current_commit.
    destruct (quizData (current w)) as [d|] eqn:Hd.
    + rewrite (exec_finish_some _ (current w) d Hd). cbn [fst].
      rewrite (exec_finish_some _ _ d); [|exact Hd]. reflexivity.
    + rewrite (exec_finish_none _ (current w) Hd). cbn [fst].
      rewrite exec_finish_none; [|exact Hd]. reflexivity.
  - intros d Hd. subst w1. cbn [step]. rewrite !calls_commit, !current_commit.
    rewrite (exec_finish_some _ (current w) d Hd). cbn [fst snd].
    split; [reflexivity|].
    rewrite (exec_finish_some _ _ d); [|exact Hd]. reflexivity.
Qed.

Lemma wf_started2 : wf started2.
Proof. apply wf_run, wf_initial. Qed.

Lemma finish_stops_timer_but_resubmits_witness :
  wf started2 /\
  calls (step (step started2 FinishQuiz) FinishQuiz) =
    calls (step started2 FinishQuiz) ++
      [SubmitResults (computeResults (current started2) twoQuestions)
         (quizType (current started2))].
Proof.
  split; [exact wf_started2|].
  exact (proj2 (proj2 (proj2 (proj2
    (finish_stops_timer_but_resubmits started2 wf_started2)))
    twoQuestions eq_refl)).
Defined.

(** ** Starting and resetting *)

Lemma exec_start_success d s :
  QuizResponse.questions d <> [] ->
  exec (startQuiz_resume (Resolved (Some d))) s =
    (startedState (Z.of_nat (length (QuizResponse.questions d))) s, []).
Proof.
  intros Hne. run_m.
  destruct (QuizResponse.questions d) as [|q qs] eqn:E; [congruence|].
  reflexivity.
Qed.

Lemma exec_reset s : exec resetQuiz s = (resetState s, []).
Proof. reflexivity. Qed.

Lemma current_fetch_success w d :
  QuizResponse.questions d <> [] ->
  current (step w (FetchSettled (Resolved (Some d)))) =
    startedState (Z.of_nat (length (QuizResponse.questions d)))
      (setError None (setQuizData (Some d) (current w))).
Proof.
  intros Hne. cbn [step current]. rewrite current_commit, exec_start_success by exact Hne.
  reflexivity.
Qed.

(** C2, as stated, fails: after a reset made while the fetch is in
    flight, the list that arrives late starts the session. *)
Lemma late_fetch_after_reset_starts_session :
  phase (run initialWorld [StartQuiz; ResetQuiz]) = Loading /\
  phase (run initialWorld
           [StartQuiz; ResetQuiz; FetchSettled (Resolved (Some twoQuestions))])
    = InProgress /\
  quizStarted (current (run initialWorld
           [StartQuiz; ResetQuiz; FetchSettled (Resolved (Some twoQuestions))]))
    = true.
Proof. vm_compute. repeat split; reflexivity. Qed.

(** C2, amended: [reset()] does not cancel a fetch in flight and leaves
    no mark for it. When the fetch completes after the reset with a
    non-empty list the session starts, in progress, with these
    questions. A [reset()] followed by [start()] gives a session whose
    answers and results are empty, whose index is 0, and whose questions
    are the list the completed fetch returned. *)
Theorem reset_then_fetch_starts_fresh (w : World) (d : QuizResponse.t) :
  QuizResponse.questions d <> [] ->
  forall es, es = [StartQuiz; ResetQuiz; FetchSettled (Resolved (Some d))] \/
             es = [ResetQuiz; StartQuiz; FetchSettled (Resolved (Some d))] \/
             es = [ResetQuiz; FetchSettled (Resolved (Some d))] ->
  let w' := run w es in
  phase w' = InProgress /\
  quizData (current w') = Some d /\
  selectedAnswers (current w') = ∅ /\
  quizResults (current w') = [] /\
  currentQuestionIndex (current w') = 0.
Proof.
  intros Hne es Hes w'.
  assert (Hc : current w' =
    startedState (Z.of_nat (length (QuizResponse.questions d)))
      (setError None (setQuizData (Some d) (resetState (current w))))).
  { subst w'. destruct Hes as [-> | [-> | ->]]; unfold run; cbn [fold_left];
      rewrite current_fetch_success by exact Hne; reflexivity. }
  split; [|rewrite Hc; repeat split; reflexivity].
  unfold phase. rewrite Hc. reflexivity.
Qed.

Lemma reset_then_fetch_starts_fresh_witness :
  selectedAnswers (current (run (run started2 [AnswerSelect "w1" "a1"; FinishQuiz])
     [ResetQuiz; StartQuiz; FetchSettled (Resolved (Some twoQuestions))])) = ∅.
Proof.
  refine (proj1 (proj2 (proj2
    (reset_then_fetch_starts_fresh
       (run started2 [AnswerSelect "w1" "a1"; FinishQuiz]) twoQuestions _ _ _)))).
  - discriminate.
  - right; left; reflexivity.
Defined.

(** C7: when the fetch resolves with [n > 0] questions the session
    starts at index 0 with no answers, [n * 30] seconds left and the
    timer running. *)
Theorem start_initialises_session (w : World) (d : QuizResponse.t) :
  wf w ->
  QuizResponse.questions d <> [] ->
  let w' := step w (FetchSettled (Resolved (Some d))) in
  let n := Z.of_nat (length (QuizResponse.questions d)) in
  currentQuestionIndex (current w') = 0 /\
  selectedAnswers (current w') = ∅ /\
  timeLeft (current w') = n * 30 /\
  timerActive (current w') = true /\
  is_Some (interval w') /\
  quizStarted (current w') = true /\
  showResults (current w') = false /\
  quizData (current w') = Some d /\
  phase w' = InProgress.
Proof.
  intros Hw Hne w' n.
  pose proof (current_fetch_success w d Hne) as Hc. fold w' n in Hc.
  assert (Hw' : wf w') by (apply wf_step; exact Hw).
  rewrite Hc. cbn [currentQuestionIndex selectedAnswers timeLeft timerActive
    quizStarted showResults quizData startedState setQuizData setError].
  repeat split.
  - unfold wf in Hw'. destruct (interval w'); [eauto|].
    rewrite Hc in Hw'. cbn [timerActive timeLeft startedState] in Hw'.
    assert (0 < n) by (subst n; destruct (QuizResponse.questions d); [congruence|cbn; lia]).
    destruct (0 <? n * 30) eqn:E; [discriminate|]. apply Z.ltb_ge in E. lia.
  - unfold phase. rewrite Hc. reflexivity.
Qed.

Lemma start_initialises_session_witness :
  timeLeft (current (step (step initialWorld StartQuiz)
                       (FetchSettled (Resolved (Some fiveQuestions))))) = 150 /\
  timerActive (current (step (step initialWorld StartQuiz)
                       (FetchSettled (Resolved (Some fiveQuestions))))) = true.
Proof.
  pose proof (start_initialises_session (step initialWorld StartQuiz) fiveQuestions
    (wf_step _ _ wf_initial) ltac:(discriminate)) as H.
  cbv zeta in H. destruct H as (_ & _ & Ht & Ha & _).
  split; [exact Ht | exact Ha].
Defined.

(** ** A start that fails *)

Lemma errorMessage_serverError e : errorMessage e = js_or (serverError e) start_failed_message.
Proof. reflexivity. Qed.

Lemma errorMessage_no_response e :
  response e = None -> errorMessage e = start_failed_message.
Proof. unfold errorMessage. intros ->. reflexivity. Qed.

Lemma errorMessage_distinct e :
  serverError e <> Some no_questions_message ->
  errorMessage e <> no_questions_message.
Proof.
  rewrite errorMessage_serverError. unfold js_or.
  destruct (serverError e) as [m|]; [|discriminate].
  destruct (String.eqb_spec m ""); [discriminate|congruence].
Qed.

Lemma exec_start_failure o s :
  startFails o ->
  exec (startQuiz_resume o) s =
    (s, match o with
        | Resolved _ => [ToastError no_questions_message]
        | Rejected e => [ConsoleError "Start quiz error:"; ToastError (errorMessage e)]
        end).
Proof.
  destruct o as [[d|]|e]; cbn [startFails]; intros H; run_m.
  - rewrite H. reflexivity.
  - reflexivity.
  - reflexivity.
Qed.

Lemma fetch_result_cases o s :
  startFails o /\ fst (exec (startQuiz_resume o) s) = s \/
  exists d, o = Resolved (Some d) /\ QuizResponse.questions d <> [] /\
    fst (exec (startQuiz_resume o) s) =
      startedState (Z.of_nat (length (QuizResponse.questions d))) s.
Proof.
  destruct o as [[d|]|e].
  - destruct (QuizResponse.questions d) as [|q qs] eqn:E.
    + left. split; [exact E|]. rewrite exec_start_failure by exact E. reflexivity.
    + right. exists d. assert (Hne : QuizResponse.questions d <> []) by congruence.
      rewrite exec_start_success by exact Hne. rewrite E. auto.
  - left. split; [exact I|]. reflexivity.
  - left. split; [exact I|]. reflexivity.
Qed.

Lemma exec_resume_held (data : option QuizResponse.t) s :
  exists s', fst (exec (startQuiz_resume (Resolved data)) s) = s' /\
    (s' = s \/ exists n, s' = startedState n s).
Proof.
  destruct (fetch_result_cases (Resolved data) s) as [[_ H]|(d & _ & _ & H)];
    rewrite H; eauto.
Qed.

(** C8, as stated, fails for a failed fetch. The failure of the first
    fetch gives the very toast of an empty list and puts the error page
    in place of the configuration screen; the failure of a fetch made
    after an earlier success and a reset starts a session on the list
    held from before. *)
Lemma failed_fetch_is_not_told_apart :
  calls (run initialWorld [StartQuiz; FetchFailed networkError])
    = [ToastError "No questions available for the selected criteria"] /\
  calls (run initialWorld [StartQuiz; FetchSettled (Resolved (Some emptyResponse))])
    = [ToastError "No questions available for the selected criteria"] /\
  render (current initialWorld) = ConfigView /\
  render (current (run initialWorld [StartQuiz; FetchFailed networkError]))
    = ErrorView "Error loading quiz" "Failed to load quiz" /\
  quizStarted (current (run initialWorld
     [StartQuiz; FetchSettled (Resolved (Some twoQuestions)); ResetQuiz;
      StartQuiz; FetchFailed networkError])) = true.
Proof. vm_compute. repeat split; reflexivity. Qed.

(** C8, amended: when the fetch gives an empty list no session is
    started: no state variable of the component changes, the chosen
    type, count and status filter included, the timer is untouched, the
    user is told "No questions available for the selected criteria",
    and from the configuration screen the component stays on it. When
    the fetch fails the chosen configuration is unchanged as well, but
    the component does not stay on the configuration screen: it shows
    the error page, whose heading is "No words available for quiz" for
    a 404 and "Error loading quiz" for any other failure, then with the
    server's message or "Failed to load quiz"; when no question list is
    held from before, no state variable changes. *)
Theorem start_empty_or_failed (w : World) :
  (forall d, QuizResponse.questions d = [] ->
     let w' := step w (FetchSettled (Resolved (Some d))) in
     current w' = setError None (setQuizData (Some d) (current w)) /\
     quizStarted (current w') = quizStarted (current w) /\
     (quizType (current w'), questionCount (current w'), status (current w')) =
       (quizType (current w), questionCount (current w), status (current w)) /\
     interval w' = interval w /\
     calls w' = calls w ++ [ToastError no_questions_message] /\
     (quizStarted (current w) = false -> render (current w') = ConfigView) /\
     (quizStarted (current w) = false -> pending w = 1%nat -> phase w' = Configuring)) /\
  (forall e,
     let w' := step w (FetchFailed e) in
     (quizType (current w'), questionCount (current w'), status (current w')) =
       (quizType (current w), questionCount (current w), status (current w)) /\
     quizData (current w') = quizData (current w) /\
     error (current w') = Some e /\
     render (current w') = ErrorView (errorHeading e) (errorParagraph e) /\
     render (current w') <> ConfigView /\
     (quizData (current w) = None ->
        current w' = setError (Some e) (current w) /\ interval w' = interval w)) /\
  (forall e,
     (is404Error e = true -> errorHeading e = "No words available for quiz") /\
     (is404Error e = false ->
        errorHeading e = "Error loading quiz" /\
        errorParagraph e = js_or (serverError e) "Failed to load quiz")).
Proof.
  split; [|split].
  - intros d Hd w'.
    assert (Hf : startFails (Resolved (Some d))) by exact Hd.
    assert (Hc : current w' = setError None (setQuizData (Some d) (current w))).
    { subst w'. cbn [step current]. rewrite current_commit, exec_start_failure by exact Hf.
      reflexivity. }
    split; [exact Hc|]. rewrite Hc. split; [reflexivity|]. split; [reflexivity|].
    split.
    { subst w'. cbn [step interval]. unfold commit. cbn [interval].
      rewrite exec_start_failure by exact Hf. cbn [fst].
      apply timerEffect_same; reflexivity. }
    split.
    { subst w'. cbn [step calls]. rewrite calls_commit, exec_start_failure by exact Hf.
      reflexivity. }
    split.
    { intros Hs. unfold render. cbn [error setError quizStarted setQuizData]. rewrite Hs.
      reflexivity. }
    intros Hs Hp. unfold phase. rewrite Hc. cbn [quizStarted setError setQuizData].
    rewrite Hs. subst w'. cbn [step pending]. rewrite Hp. reflexivity.
  - intros e w'.
    assert (Hc : current w' =
      fst (exec (startQuiz_resume (Resolved (quizData (current w))))
             (setError (Some e) (current w)))) by reflexivity.
    destruct (exec_resume_held (quizData (current w)) (setError (Some e) (current w)))
      as (s' & Hs' & Hcase).
    rewrite Hs' in Hc.
    assert (He : error (current w') = Some e)
      by (rewrite Hc; destruct Hcase as [->|[n ->]]; reflexivity).
    split; [rewrite Hc; destruct Hcase as [->|[n ->]]; reflexivity|].
    split; [rewrite Hc; destruct Hcase as [->|[n ->]]; reflexivity|].
    split; [exact He|].
    assert (Hr : render (current w') = ErrorView (errorHeading e) (errorParagraph e))
      by (unfold render; rewrite He; reflexivity).
    split; [exact Hr|]. split; [rewrite Hr; discriminate|].
    intros Hn.
    assert (Hx : exec (startQuiz_resume (Resolved (quizData (current w))))
                   (setError (Some e) (current w))
                 = (setError (Some e) (current w), [ToastError no_questions_message])).
    { rewrite Hn. apply (exec_start_failure (Resolved None)). exact I. }
    split.
    + subst w'. cbn [step current]. rewrite current_commit, Hx. reflexivity.
    + subst w'. cbn [step interval]. unfold commit. cbn [interval]. rewrite Hx. cbn [fst].
      apply timerEffect_same; reflexivity.
  - intros e. unfold errorHeading, errorParagraph.
    split; [intros ->; reflexivity|intros ->; split; reflexivity].
Qed.

Lemma start_empty_or_failed_witness :
  render (current (step (step initialWorld StartQuiz)
                     (FetchSettled (Resolved (Some emptyResponse))))) = ConfigView /\
  current (step (step initialWorld StartQuiz) (FetchFailed networkError))
    = setError (Some networkError) (current (step initialWorld StartQuiz)).
Proof.
  pose proof (start_empty_or_failed (step initialWorld StartQuiz)) as [He [Hf _]].
  split.
  - exact (proj1 (proj2 (proj2 (proj2 (proj2 (proj2 (He emptyResponse eq_refl)))))) eq_refl).
  - exact (proj1 (proj2 (proj2 (proj2 (proj2 (proj2 (Hf networkError))))) eq_refl)).
Defined.

(** ** Finishing without a question list *)

(** C10: with no question list, [finish()] turns the timer flag off and
    returns: no result is computed, nothing is submitted, the results
    are not shown, and every other variable keeps its value. *)
Theorem finish_without_questions (w : World) :
  quizData (current w) = None ->
  let w' := step w FinishQuiz in
  current w' = timerStopped (current w) /\
  timerActive (current w') = false /\
  calls w' = calls w /\
  quizResults (current w') = quizResults (current w) /\
  showResults (current w') = showResults (current w) /\
  quizStarted (current w') = quizStarted (current w) /\
  currentQuestionIndex (current w') = currentQuestionIndex (current w) /\
  selectedAnswers (current w') = selectedAnswers (current w) /\
  timeLeft (current w') = timeLeft (current w).
Proof.
  intros Hn w'. subst w'. cbn [step].
  rewrite current_commit, calls_commit, (exec_finish_none _ _ Hn).
  cbn [fst snd]. rewrite app_nil_r. repeat split; reflexivity.
Qed.

Lemma finish_without_questions_witness :
  calls (step initialWorld FinishQuiz) = [] /\
  showResults (current (step initialWorld FinishQuiz)) = false.
Proof.
  pose proof (finish_without_questions initialWorld eq_refl) as H.
  cbv zeta in H. destruct H as (_ & _ & Hc & _ & Hs & _).
  split; [exact Hc | exact Hs].
Defined.

(** ** The result list *)

Lemma js_or_recorded (a : string) : js_or (Some a) "" = a.
Proof. unfold js_or. destruct (String.eqb_spec a ""); congruence. Qed.

Lemma js_eq_true (o : option string) (s : string) : js_eq o s = true <-> o = Some s.
Proof.
  destruct o as [a|]; cbn [js_eq].
  - rewrite String.eqb_eq. split; congruence.
  - split; discriminate.
Qed.

Lemma computeResults_lookup snap d i q :
  QuizResponse.questions d !! i = Some q ->
  computeResults snap d !! i = Some (resultOf (selectedAnswers snap) q).
Proof.
  intros H. unfold computeResults.
  change (map ?f ?l) with (f <$> l). rewrite list_lookup_fmap, H. reflexivity.
Qed.

(** C3, as stated, fails on its last part: for an unanswered question
    whose correct answer is the empty string the entry has
    [selectedAnswer = correctAnswer] and yet is marked incorrect. *)
Lemma unanswered_blank_marked_incorrect :
  let w := run initialWorld
             [StartQuiz; FetchSettled (Resolved (Some (sampleResponse [blankQuestion])));
              FinishQuiz] in
  selectedAnswers (current w) !! "w0" = None /\
  exists r, quizResults (current w) = [r] /\
    QuizResult.selectedAnswer r = QuizResult.correctAnswer r /\
    QuizResult.correct r = false.
Proof.
  split; [reflexivity|].
  eexists. split; [vm_compute; reflexivity|]. split; reflexivity.
Qed.

(** C3, amended: the result computed by a finish has one entry per
    question, in question order, however many were answered, and it is
    the list submitted. The entry of a question without recorded answer
    has the empty string as selected answer and is incorrect. An entry
    is correct exactly when a recorded answer equals the correct answer;
    this is [selectedAnswer === correctAnswer] whenever the question has
    a recorded answer or its correct answer is not the empty string. *)
Theorem results_cover_all_questions (snap s : QuizState) (d : QuizResponse.t) :
  quizData snap = Some d ->
  let answers := selectedAnswers snap in
  let results := quizResults (fst (exec (handleFinishQuiz snap) s)) in
  length results = length (QuizResponse.questions d) /\
  snd (exec (handleFinishQuiz snap) s) = [SubmitResults results (quizType s)] /\
  forall i q, QuizResponse.questions d !! i = Some q ->
    exists r, results !! i = Some r /\
      QuizResult.wordId r = QuizQuestion.wordId q /\
      QuizResult.word r = QuizQuestion.word q /\
      QuizResult.question r = QuizQuestion.question q /\
      QuizResult.correctAnswer r = QuizQuestion.correctAnswer q /\
      (answers !! QuizQuestion.wordId q = None ->
         QuizResult.selectedAnswer r = "" /\ QuizResult.correct r = false) /\
      (forall a, answers !! QuizQuestion.wordId q = Some a ->
         QuizResult.selectedAnswer r = a) /\
      (QuizResult.correct r = true <->
         answers !! QuizQuestion.wordId q = Some (QuizQuestion.correctAnswer q)) /\
      (answers !! QuizQuestion.wordId q <> None \/ QuizQuestion.correctAnswer q <> "" ->
         QuizResult.correct r =
           String.eqb (QuizResult.selectedAnswer r) (QuizResult.correctAnswer r)).
Proof.
  intros Hd answers results. subst results.
  rewrite (exec_finish_some snap s d Hd). cbn [fst snd quizResults finishedState].
  split; [unfold computeResults; apply length_map|].
  split; [reflexivity|].
  intros i q Hq. exists (resultOf answers q).
  split; [apply computeResults_lookup, Hq|].
  unfold resultOf. cbn [QuizResult.wordId QuizResult.word QuizResult.question
    QuizResult.correctAnswer QuizResult.selectedAnswer QuizResult.correct].
  repeat (split; [reflexivity|]).
  split; [intros ->; split; reflexivity|].
  split; [intros a ->; apply js_or_recorded|].
  split; [apply js_eq_true|].
  intros Hor. destruct (answers !! QuizQuestion.wordId q) as [a|] eqn:Ha.
  - rewrite js_or_recorded. reflexivity.
  - cbn [js_or js_eq]. destruct Hor as [H|H]; [congruence|].
    symmetry. apply String.eqb_neq. congruence.
Qed.

Lemma results_cover_all_questions_witness :
  length (quizResults (fst (exec (handleFinishQuiz (current started2)) (current started2))))
    = 2%nat.
Proof.
  exact (proj1 (results_cover_all_questions (current started2) (current started2)
                  twoQuestions eq_refl)).
Defined.

(** Three of five answered, then the timer runs out: five entries, two
    of them with the empty answer and incorrect. *)
Example three_of_five_then_timeout :
  let w := run (run initialWorld [StartQuiz; FetchSettled (Resolved (Some fiveQuestions));
                  AnswerSelect "w1" "a1"; AnswerSelect "w2" "other"; AnswerSelect "w4" "a4";
                  Tick]) (repeat Tick 149) in
  phase w = Finished /\
  map (fun r => (QuizResult.selectedAnswer r, QuizResult.correct r)) (quizResults (current w))
    = [("a1", true); ("other", false); ("", false); ("a4", true); ("", false)].
Proof. vm_compute. split; reflexivity. Qed.

(** ** Selecting answers and moving between questions *)

Lemma exec_answer_select questionId answer s :
  exec (handleAnswerSelect questionId answer) s = (answeredState questionId answer s, []).
Proof. reflexivity. Qed.

Lemma step_answer_select w questionId answer :
  step w (AnswerSelect questionId answer) =
    mkWorld (answeredState questionId answer (current w)) (interval w) (calls w) (pending w).
Proof.
  cbn [step]. rewrite exec_answer_select. unfold commit. cbn [fst snd].
  rewrite timerEffect_same by reflexivity. rewrite app_nil_r. reflexivity.
Qed.

Lemma exec_next_below snap s :
  currentQuestionIndex snap < questionsLength snap - 1 ->
  exec (handleNextQuestion snap) s = (movedTo (currentQuestionIndex s + 1) s, []).
Proof.
  intros H. apply Z.ltb_lt in H. unfold exec, handleNextQuestion. rewrite H. reflexivity.
Qed.

Lemma next_at_last snap :
  questionsLength snap - 1 <= currentQuestionIndex snap ->
  handleNextQuestion snap = handleFinishQuiz snap.
Proof.
  intros H. apply Z.ltb_ge in H. unfold handleNextQuestion. rewrite H. reflexivity.
Qed.

Lemma exec_previous snap s :
  exec (handlePreviousQuestion snap) s =
    if 0 <? currentQuestionIndex snap then (movedTo (currentQuestionIndex s - 1) s, [])
    else (s, []).
Proof.
  unfold exec, handlePreviousQuestion. destruct (0 <? currentQuestionIndex snap); reflexivity.
Qed.

Lemma finish_keeps_answers snap : keeps_answers (handleFinishQuiz snap).
Proof.
  intros s. destruct (quizData snap) as [d|] eqn:H.
  - rewrite (exec_finish_some _ _ _ H). split; reflexivity.
  - rewrite (exec_finish_none _ _ H). split; reflexivity.
Qed.

Lemma next_keeps_answers snap : keeps_answers (handleNextQuestion snap).
Proof.
  destruct (Z.lt_ge_cases (currentQuestionIndex snap) (questionsLength snap - 1)) as [H|H].
  - intros s. rewrite (exec_next_below _ _ H). split; reflexivity.
  - rewrite (next_at_last _ H). apply finish_keeps_answers.
Qed.

Lemma previous_keeps_answers snap : keeps_answers (handlePreviousQuestion snap).
Proof.
  intros s. rewrite exec_previous. destruct (0 <? currentQuestionIndex snap); split; reflexivity.
Qed.

Lemma ret_keeps_answers : keeps_answers (mret tt).
Proof. intros s. split; reflexivity. Qed.

Lemma clickNext_keeps_answers snap : keeps_answers (clickNext snap).
Proof.
  unfold clickNext. destruct (render snap) as [| |q b|hd pg]; try apply ret_keeps_answers.
  destruct (nextDisabled snap q); [apply ret_keeps_answers|apply next_keeps_answers].
Qed.

Lemma clickPrevious_keeps_answers snap : keeps_answers (clickPrevious snap).
Proof.
  unfold clickPrevious. destruct (render snap) as [| |q b|hd pg]; try apply ret_keeps_answers.
  destruct (previousDisabled snap); [apply ret_keeps_answers|apply previous_keeps_answers].
Qed.






Example clicks_move_there_and_back :
  currentQuestionIndex (current (run started2 [AnswerSelect "w1" "a1"; ClickNext])) = 1 /\
  currentQuestionIndex
    (current (run started2 [AnswerSelect "w1" "a1"; ClickNext; ClickPrevious])) = 0.
Proof. vm_compute. split; reflexivity. Qed.

(** The interval's callback was created in the render of the last tick:
    an answer selected after that tick is not in the result of a finish
    fired by the timer, while the same answer is in the result of a
    finish called from the screen. *)
Remark answer_after_last_tick :
  let w := run started1 (repeat Tick 29 ++ [AnswerSelect "w1" "a1"]) in
  timeLeft (current w) = 1 /\
  selectedAnswers (current w) !! "w1" = Some "a1" /\
  map QuizResult.selectedAnswer (quizResults (current (step w Tick))) = [""] /\
  map QuizResult.selectedAnswer (quizResults (current (step w FinishQuiz))) = ["a1"].
Proof. vm_compute. repeat split; reflexivity. Qed.

(** ** Selecting outside a running session *)

(** C6, as stated, fails: after the session has finished, and before
    any session exists, selecting an answer records it. *)
Lemma select_after_finish_records :
  phase (run started2 [FinishQuiz]) = Finished /\
  selectedAnswers (current (run started2 [FinishQuiz])) !! "w1" = None /\
  selectedAnswers (current (run started2 [FinishQuiz; AnswerSelect "w1" "a1"])) !! "w1"
    = Some "a1" /\
  phase initialWorld = Configuring /\
  selectedAnswers (current (run initialWorld [AnswerSelect "w9" "a"])) !! "w9" = Some "a".
Proof. vm_compute. repeat split; reflexivity. Qed.

(** C6, amended: selecting an answer checks no state. In every state,
    also after the session has finished, it records the answer under the
    given id. It changes nothing else: the computed result, the flags,
    the index, the timer and the question list keep their values, the
    phase is the same and no call is made. *)
Theorem select_records_in_every_state (w : World) (id answer : string) :
  let w' := step w (AnswerSelect id answer) in
  selectedAnswers (current w') = <[id := answer]> (selectedAnswers (current w)) /\
  selectedAnswers (current w') !! id = Some answer /\
  quizResults (current w') = quizResults (current w) /\
  showResults (current w') = showResults (current w) /\
  quizStarted (current w') = quizStarted (current w) /\
  currentQuestionIndex (current w') = currentQuestionIndex (current w) /\
  timeLeft (current w') = timeLeft (current w) /\
  timerActive (current w') = timerActive (current w) /\
  quizData (current w') = quizData (current w) /\
  interval w' = interval w /\
  calls w' = calls w /\
  phase w' = phase w.
Proof.
  intros w'. subst w'. rewrite step_answer_select. cbn [current interval calls].
  split; [reflexivity|]. split; [apply lookup_insert_eq|].
  repeat split; reflexivity.
Qed.

(** ** The Next button *)

Lemma currentQuestion_in_range s q :
  currentQuestion s = Some q ->
  0 <= currentQuestionIndex s < questionsLength s.
Proof.
  unfold currentQuestion, questionsLength. destruct (quizData s) as [d|]; [|discriminate].
  destruct (currentQuestionIndex s <? 0) eqn:E; [discriminate|].
  apply Z.ltb_ge in E. intros H. apply lookup_lt_Some in H. lia.
Qed.

Lemma render_question s q b :
  render s = QuestionView q b -> currentQuestion s = Some q.
Proof.
  unfold render. destruct (error s); [discriminate|].
  destruct (negb (quizStarted s)); [discriminate|].
  destruct (currentQuestion s); [|discriminate]. congruence.
Qed.

(** C5, as stated, fails for the Next button, the one caller of the
    handler: in progress at the first of two questions with no answer
    recorded a click on Next does not move, and at the last question,
    answered, a click on Next does not finish. *)
Lemma next_button_needs_answer_and_never_finishes :
  phase started2 = InProgress /\
  currentQuestionIndex (current started2) = 0 /\
  currentQuestionIndex (current (step started2 ClickNext)) = 0 /\
  let w := run started2 [AnswerSelect "w1" "a1"; ClickNext; AnswerSelect "w2" "a2"] in
  currentQuestionIndex (current w) = 1 /\
  phase (step w ClickNext) = InProgress /\
  calls (step w ClickNext) = [] /\
  phase (step w FinishQuiz) = Finished.
Proof. vm_compute. repeat split; reflexivity. Qed.

(** C5, amended: the handler, when it runs, behaves as claimed: at or
    past the last index it is [finish()], below it adds one to the
    index, and it never looks at the answers. The Next button that calls
    it is disabled while the current question has no recorded non-empty
    answer and at the last question: a click moves on by one from an
    answered question that is not the last, and otherwise does nothing;
    it never finishes the quiz. *)
Theorem next_handler_and_button (s : QuizState) :
  (forall snap, currentQuestionIndex snap < questionsLength snap - 1 ->
     exec (handleNextQuestion snap) s = (movedTo (currentQuestionIndex s + 1) s, [])) /\
  (forall snap, questionsLength snap - 1 <= currentQuestionIndex snap ->
     handleNextQuestion snap = handleFinishQuiz snap) /\
  (forall q b, render s = QuestionView q b ->
     hasAnswered s q = true ->
     currentQuestionIndex s <> questionsLength s - 1 ->
     exec (clickNext s) s = (movedTo (currentQuestionIndex s + 1) s, [])) /\
  (forall q b, render s = QuestionView q b ->
     hasAnswered s q = false \/ currentQuestionIndex s = questionsLength s - 1 ->
     exec (clickNext s) s = (s, [])) /\
  ((forall q b, render s <> QuestionView q b) -> exec (clickNext s) s = (s, [])) /\
  snd (exec (clickNext s) s) = [] /\
  showResults (fst (exec (clickNext s) s)) = showResults s.
Proof.
  split; [intros snap; apply exec_next_below|].
  split; [intros snap; apply next_at_last|].
  assert (Hen : forall q b, render s = QuestionView q b ->
     hasAnswered s q = true ->
     currentQuestionIndex s <> questionsLength s - 1 ->
     exec (clickNext s) s = (movedTo (currentQuestionIndex s + 1) s, [])).
  { intros q b Hr Ha Hl. pose proof (currentQuestion_in_range s q (render_question s q b Hr)).
    unfold clickNext. rewrite Hr. unfold nextDisabled, isLastQuestion. rewrite Ha.
    destruct (Z.eqb_spec (currentQuestionIndex s) (questionsLength s - 1)); [contradiction|].
    cbn [negb orb]. apply exec_next_below. lia. }
  assert (Hdis : forall q b, render s = QuestionView q b ->
     hasAnswered s q = false \/ currentQuestionIndex s = questionsLength s - 1 ->
     exec (clickNext s) s = (s, [])).
  { intros q b Hr Hor. unfold clickNext. rewrite Hr. unfold nextDisabled, isLastQuestion.
    destruct Hor as [Ha|Hl].
    - rewrite Ha. reflexivity.
    - apply Z.eqb_eq in Hl. rewrite Hl, orb_true_r. reflexivity. }
  assert (Hno : (forall q b, render s <> QuestionView q b) -> exec (clickNext s) s = (s, [])).
  { intros Hr. unfold clickNext. destruct (render s) as [| |q b|hd pg] eqn:E; try reflexivity.
    exfalso. exact (Hr q b eq_refl). }
  split; [exact Hen|]. split; [exact Hdis|]. split; [exact Hno|].
  destruct (render s) as [| |q b|hd pg] eqn:Hr.
  - rewrite Hno by (intros; discriminate). split; reflexivity.
  - rewrite Hno by (intros; discriminate). split; reflexivity.
  - destruct (hasAnswered s q) eqn:Ha.
    + destruct (Z.eq_dec (currentQuestionIndex s) (questionsLength s - 1)) as [Hl|Hl].
      * rewrite (Hdis q b eq_refl (or_intror Hl)). split; reflexivity.
      * rewrite (Hen q b eq_refl Ha Hl). split; reflexivity.
    + rewrite (Hdis q b eq_refl (or_introl Ha)). split; reflexivity.
  - rewrite Hno by (intros; discriminate). split; reflexivity.
Qed.

Lemma next_handler_and_button_witness :
  exec (clickNext (current (step started2 (AnswerSelect "w1" "a1"))))
       (current (step started2 (AnswerSelect "w1" "a1")))
    = (movedTo 1 (current (step started2 (AnswerSelect "w1" "a1"))), []) /\
  exec (clickNext (current started2)) (current started2) = (current started2, []).
Proof.
  split.
  - refine (proj1 (proj2 (proj2
      (next_handler_and_button (current (step started2 (AnswerSelect "w1" "a1"))))))
      (sampleQuestion "w1" "a1") false _ _ _).
    + vm_compute. reflexivity.
    + vm_compute. reflexivity.
    + vm_compute. discriminate.
  - refine (proj1 (proj2 (proj2 (proj2
      (next_handler_and_button (current started2)))))
      (sampleQuestion "w1" "a1") false _ _).
    + vm_compute. reflexivity.
    + left. vm_compute. reflexivity.
Defined.

(** ** Marking the incorrect words for review *)

Lemma filter_isPut_requests ws :
  List.filter isPut (map putReviewing ws) = map putReviewing ws.
Proof. induction ws as [|x ws IH]; [reflexivity|]. cbn. rewrite IH. reflexivity. Qed.

Lemma filter_isToast_requests ws : List.filter isToast (map putReviewing ws) = [].
Proof. induction ws as [|x ws IH]; [reflexivity|]. cbn. exact IH. Qed.

Lemma exec_mark put_ok snap s :
  exec (markWordsForReview put_ok snap) s =
    (s, if Nat.eqb (length (incorrectWords snap)) 0
        then [ToastSuccess nothing_to_mark_message]
        else reviewRequests snap ++
             if forallb put_ok (seq 0 (length (incorrectWords snap)))
             then [ToastSuccess (string_of_nat (length (incorrectWords snap))
                                   +:+ " words marked for review!");
                   InvalidateQueries "vocabulary";
                   InvalidateQueries "vocabularyStats"]
             else [ToastError mark_failed_message]).
Proof.
  unfold exec, markWordsForReview, reviewRequests.
  destruct (Nat.eqb (length (incorrectWords snap)) 0); [reflexivity|].
  unfold mbind, M_bind, emitAll, emit.
  destruct (forallb put_ok (seq 0 (length (incorrectWords snap)))); reflexivity.
Qed.

(** C4, as stated, fails on its last part: with two incorrect words,
    whether only the first update fails, only the second, or both, the
    user gets the same single message, which names no word. *)
Lemma review_failure_report_is_generic :
  incorrectWords twoWrong = ["w1"; "w2"] /\
  List.filter isToast
    (snd (exec (markWordsForReview (fun i => negb (Nat.eqb i 0)) twoWrong) twoWrong))
    = [ToastError "Failed to mark words for review"] /\
  List.filter isToast
    (snd (exec (markWordsForReview (fun i => negb (Nat.eqb i 1)) twoWrong) twoWrong))
    = [ToastError "Failed to mark words for review"] /\
  List.filter isToast
    (snd (exec (markWordsForReview (fun _ => false) twoWrong) twoWrong))
    = [ToastError "Failed to mark words for review"].
Proof. vm_compute. repeat split; reflexivity. Qed.

(** C4, amended: one status update to 'reviewing' is sent for every
    result entry that is not correct, in result order, whatever the
    outcome of the others. With no such entry nothing is sent and a
    success is reported. When all updates succeed the count is reported
    and the word lists are refreshed. When at least one update fails the
    report is the one message "Failed to mark words for review", the
    same for every set of failed words. The state is not changed. *)
Theorem review_marks_every_incorrect_word
    (put_ok : nat -> bool) (snap s : QuizState) :
  let n := length (incorrectWords snap) in
  let out := snd (exec (markWordsForReview put_ok snap) s) in
  fst (exec (markWordsForReview put_ok snap) s) = s /\
  List.filter isPut out =
    map (fun result => AxiosPut ("/vocabulary/" +:+ QuizResult.wordId result) "reviewing")
      (List.filter (fun result => negb (QuizResult.correct result)) (quizResults snap)) /\
  (n = 0%nat -> out = [ToastSuccess nothing_to_mark_message]) /\
  (n <> 0%nat -> (forall i, (i < n)%nat -> put_ok i = true) ->
     out = reviewRequests snap ++
       [ToastSuccess (string_of_nat n +:+ " words marked for review!");
        InvalidateQueries "vocabulary"; InvalidateQueries "vocabularyStats"]) /\
  (n <> 0%nat -> (exists i, (i < n)%nat /\ put_ok i = false) ->
     out = reviewRequests snap ++ [ToastError mark_failed_message] /\
     List.filter isToast out = [ToastError mark_failed_message]).
Proof.
  intros n out. subst out. rewrite exec_mark. cbn [fst snd]. fold n.
  split; [reflexivity|].
  split.
  { unfold reviewRequests, incorrectWords. rewrite map_map.
    destruct (Nat.eqb_spec n 0) as [E|E].
    - subst n. unfold incorrectWords in E. rewrite length_map in E.
      apply length_zero_iff_nil in E. rewrite E. reflexivity.
    - rewrite List.filter_app.
      change (map (fun x => putReviewing (QuizResult.wordId x)) ?l)
        with (map (fun x => AxiosPut ("/vocabulary/" +:+ QuizResult.wordId x) "reviewing") l).
      rewrite <- (map_map QuizResult.wordId putReviewing), filter_isPut_requests.
      rewrite map_map.
      destruct (forallb put_ok (seq 0 n)); cbn [List.filter isPut]; apply app_nil_r. }
  split; [intros ->; reflexivity|].
  split.
  - intros Hn Hall. destruct (Nat.eqb_spec n 0) as [E|_]; [contradiction|].
    replace (forallb put_ok (seq 0 n)) with true; [reflexivity|].
    symmetry. apply forallb_forall. intros i Hi. apply in_seq in Hi. apply Hall. lia.
  - intros Hn (i & Hi & Hf). destruct (Nat.eqb_spec n 0) as [E|_]; [contradiction|].
    replace (forallb put_ok (seq 0 n)) with false.
    + split; [reflexivity|]. rewrite List.filter_app. unfold reviewRequests.
      rewrite filter_isToast_requests. reflexivity.
    + symmetry. apply not_true_is_false. intros Hall.
      rewrite forallb_forall in Hall. specialize (Hall i). rewrite Hall in Hf; [discriminate|].
      apply in_seq. lia.
Qed.

Lemma review_marks_every_incorrect_word_witness :
  snd (exec (markWordsForReview (fun i => Nat.eqb i 0) twoWrong) twoWrong) =
    [AxiosPut "/vocabulary/w1" "reviewing"; AxiosPut "/vocabulary/w2" "reviewing";
     ToastError mark_failed_message].
Proof.
  refine (proj1 (proj2 (proj2 (proj2 (proj2
    (review_marks_every_incorrect_word (fun i => Nat.eqb i 0) twoWrong twoWrong)))) _ _)).
  - vm_compute. discriminate.
  - exists 1%nat. split; [vm_compute; lia | reflexivity].
Defined.

(** * More of the quiz *)

Example formatTime_examples :
  formatTime 150 = "2:30" /\ formatTime 5 = "0:05" /\ formatTime 0 = "0:00" /\
  formatTime 3599 = "59:59" /\ formatTime 60 = "1:00".
Proof. vm_compute. repeat split; reflexivity. Qed.

(** ** What an event does to the index, the time and the question list *)

Lemma indexStep_same s s' :
  quizData s' = quizData s -> currentQuestionIndex s' = currentQuestionIndex s ->
  indexStep s s'.
Proof. intros Hd Hi. split; [exact Hd|left; exact Hi]. Qed.

Lemma finish_indexStep snap s : indexStep s (fst (exec (handleFinishQuiz snap) s)).
Proof.
  destruct (quizData snap) as [d|] eqn:Hd.
  - rewrite (exec_finish_some _ _ _ Hd). apply indexStep_same; reflexivity.
  - rewrite (exec_finish_none _ _ Hd). apply indexStep_same; reflexivity.
Qed.

Lemma next_indexStep s : indexStep s (fst (exec (handleNextQuestion s) s)).
Proof.
  destruct (Z.lt_ge_cases (currentQuestionIndex s) (questionsLength s - 1)) as [H|H].
  - rewrite (exec_next_below _ _ H).
    split; [reflexivity|right; left; split; [reflexivity|exact H]].
  - rewrite (next_at_last _ H). apply finish_indexStep.
Qed.

Lemma previous_indexStep s : indexStep s (fst (exec (handlePreviousQuestion s) s)).
Proof.
  rewrite exec_previous. destruct (0 <? currentQuestionIndex s) eqn:E.
  - apply Z.ltb_lt in E. split; [reflexivity|right; right; left; split; [reflexivity|exact E]].
  - apply indexStep_same; reflexivity.
Qed.

Lemma clickNext_cases s : clickNext s = mret tt \/ clickNext s = handleNextQuestion s.
Proof.
  unfold clickNext. destruct (render s) as [| |q b|hd pg]; auto.
  destruct (nextDisabled s q); auto.
Qed.

Lemma clickPrevious_cases s :
  clickPrevious s = mret tt \/ clickPrevious s = handlePreviousQuestion s.
Proof.
  unfold clickPrevious. destruct (render s) as [| |q b|hd pg]; auto.
  destruct (previousDisabled s); auto.
Qed.

Lemma tick_indexStep snap s : indexStep s (fst (exec (timerTick snap) s)).
Proof.
  unfold exec, timerTick, gets, mbind, M_bind. cbn [fst snd].
  destruct (timeLeft s <=? 1).
  - unfold setTimerActive, setTimeLeft, modify. cbn [fst snd].
    pose proof (finish_indexStep snap (timerStopped s)) as H. unfold exec in H.
    change (mkState (quizType s) (questionCount s) (status s) (currentQuestionIndex s)
              (selectedAnswers s) (showResults s) (quizStarted s) (timeLeft s) false
              (quizResults s) (quizData s) (error s)) with (timerStopped s).
    destruct (handleFinishQuiz snap (timerStopped s)) as [[u s1] e1]. cbn [fst] in *.
    exact H.
  - apply indexStep_same; reflexivity.
Qed.

Lemma step_indexStep w e :
  isFetch e = false -> indexStep (current w) (current (step w e)).
Proof.
  intros Hf. destruct e as [ | o | id a | | | | | | | ok | | err ]; try discriminate;
    cbn [step]; try rewrite current_commit.
  - apply indexStep_same; reflexivity.
  - rewrite exec_answer_select. apply indexStep_same; reflexivity.
  - apply next_indexStep.
  - apply previous_indexStep.
  - destruct (clickNext_cases (current w)) as [-> | ->];
      [apply indexStep_same; reflexivity|apply next_indexStep].
  - destruct (clickPrevious_cases (current w)) as [-> | ->];
      [apply indexStep_same; reflexivity|apply previous_indexStep].
  - apply finish_indexStep.
  - rewrite exec_reset. split; [reflexivity|]. right; right; right. reflexivity.
  - rewrite exec_mark. apply indexStep_same; reflexivity.
  - destruct (interval w) as [snap|]; [|apply indexStep_same; reflexivity].
    rewrite current_commit. apply tick_indexStep.
Qed.

Lemma questionsLength_indexStep s s' :
  indexStep s s' -> questionsLength s' = questionsLength s.
Proof. intros [Hd _]. unfold questionsLength. rewrite Hd. reflexivity. Qed.

Lemma inRange_indexStep s s' : indexStep s s' -> inRange s -> inRange s'.
Proof.
  intros Hs Hr. pose proof (questionsLength_indexStep _ _ Hs) as Hl.
  destruct Hs as [_ Hi]. unfold inRange in *. rewrite Hl. lia.
Qed.

Lemma currentQuestion_inRange s : is_Some (currentQuestion s) <-> inRange s.
Proof.
  split.
  - intros [q Hq]. exact (currentQuestion_in_range s q Hq).
  - unfold inRange, currentQuestion, questionsLength.
    destruct (quizData s) as [d|]; [|lia]. intros [H0 Hl].
    destruct (currentQuestionIndex s <? 0) eqn:E; [apply Z.ltb_lt in E; lia|].
    apply lookup_lt_is_Some. lia.
Qed.

Lemma finish_error snap s : error (fst (exec (handleFinishQuiz snap) s)) = error s.
Proof.
  destruct (quizData snap) as [d|] eqn:Hd.
  - rewrite (exec_finish_some _ _ _ Hd). reflexivity.
  - rewrite (exec_finish_none _ _ Hd). reflexivity.
Qed.

Lemma next_error s : error (fst (exec (handleNextQuestion s) s)) = error s.
Proof.
  destruct (Z.lt_ge_cases (currentQuestionIndex s) (questionsLength s - 1)) as [H|H].
  - rewrite (exec_next_below _ _ H). reflexivity.
  - rewrite (next_at_last _ H). apply finish_error.
Qed.

Lemma previous_error s : error (fst (exec (handlePreviousQuestion s) s)) = error s.
Proof. rewrite exec_previous. destruct (0 <? currentQuestionIndex s); reflexivity. Qed.

Lemma tick_error snap s : error (fst (exec (timerTick snap) s)) = error s.
Proof.
  unfold exec, timerTick, gets, mbind, M_bind. cbn [fst snd].
  destruct (timeLeft s <=? 1); [|reflexivity].
  unfold setTimerActive, setTimeLeft, modify. cbn [fst snd].
  pose proof (finish_error snap (timerStopped s)) as H. unfold exec in H.
  change (mkState (quizType s) (questionCount s) (status s) (currentQuestionIndex s)
            (selectedAnswers s) (showResults s) (quizStarted s) (timeLeft s) false
            (quizResults s) (quizData s) (error s)) with (timerStopped s).
  destruct (handleFinishQuiz snap (timerStopped s)) as [[u s1] e1]. cbn [fst] in *.
  exact H.
Qed.

Lemma step_error w e :
  isFetch e = false -> error (current (step w e)) = error (current w).
Proof.
  intros Hf. destruct e as [ | o | id a | | | | | | | ok | | err ]; try discriminate;
    cbn [step]; try rewrite current_commit.
  - reflexivity.
  - rewrite exec_answer_select. reflexivity.
  - apply next_error.
  - apply previous_error.
  - destruct (clickNext_cases (current w)) as [-> | ->]; [reflexivity|apply next_error].
  - destruct (clickPrevious_cases (current w)) as [-> | ->]; [reflexivity|apply previous_error].
  - apply finish_error.
  - rewrite exec_reset. reflexivity.
  - rewrite exec_mark. reflexivity.
  - destruct (interval w) as [snap|]; [|reflexivity].
    rewrite current_commit. apply tick_error.
Qed.

(** X4: as long as no fetch settles, an index that points at a question
    keeps pointing at one, whatever handlers run, buttons are clicked or
    ticks arrive; the question list and the hook's error stay as they
    are. So the spinner is never shown: a started quiz shows the
    current question, or the error page when the hook holds an
    error. *)
Theorem current_question_stays (w : World) (es : list Event) :
  Forall (fun e => isFetch e = false) es ->
  is_Some (currentQuestion (current w)) ->
  let w' := run w es in
  is_Some (currentQuestion (current w')) /\
  quizData (current w') = quizData (current w) /\
  0 <= currentQuestionIndex (current w') < questionsLength (current w) /\
  error (current w') = error (current w) /\
  render (current w') <> SpinnerView /\
  (quizStarted (current w') = true ->
   exists q, currentQuestion (current w') = Some q /\
     render (current w') =
       match error (current w) with
       | Some e => ErrorView (errorHeading e) (errorParagraph e)
       | None => QuestionView q (showResults (current w'))
       end).
Proof.
  intros Hes Hq w'. subst w'.
  assert (H : inRange (current (run w es)) /\
              quizData (current (run w es)) = quizData (current w) /\
              error (current (run w es)) = error (current w)).
  { apply currentQuestion_inRange in Hq. revert w Hq.
    induction Hes as [|e es He _ IH]; intros w Hq; [split; [exact Hq|split; reflexivity]|].
    cbn [run fold_left]. pose proof (step_indexStep w e He) as Hs.
    destruct (IH (step w e) (inRange_indexStep _ _ Hs Hq)) as (Hr & Hd & Herr).
    split; [exact Hr|]. unfold run in Hd, Herr. rewrite Hd, Herr.
    split; [apply Hs|apply step_error, He]. }
  destruct H as (Hr & Hd & Herr).
  pose proof (proj2 (currentQuestion_inRange _) Hr) as Hc.
  split; [exact Hc|]. split; [exact Hd|]. split.
  { unfold inRange, questionsLength in Hr. rewrite Hd in Hr. exact Hr. }
  split; [exact Herr|]. destruct Hc as [q Hc]. split.
  - unfold render. rewrite Hc. destruct (error (current (run w es))); [discriminate|].
    destruct (negb (quizStarted (current (run w es)))); discriminate.
  - intros Hs. exists q. split; [exact Hc|]. unfold render. rewrite Herr, Hs, Hc.
    reflexivity.
Qed.

Lemma current_question_stays_witness :
  is_Some (currentQuestion (current
    (run started2 [AnswerSelect "w1" "a1"; NextQuestion; NextQuestion; PreviousQuestion;
                   PreviousQuestion; PreviousQuestion; Tick]))).
Proof.
  refine (proj1 (current_question_stays started2
    [AnswerSelect "w1" "a1"; NextQuestion; NextQuestion; PreviousQuestion;
     PreviousQuestion; PreviousQuestion; Tick] _ _)).
  - repeat constructor.
  - vm_compute. eauto.
Defined.

(** ** Time and index are never negative *)

Lemma finish_timeLeft snap s : timeLeft (fst (exec (handleFinishQuiz snap) s)) = timeLeft s.
Proof.
  destruct (quizData snap) as [d|] eqn:Hd.
  - rewrite (exec_finish_some _ _ _ Hd). reflexivity.
  - rewrite (exec_finish_none _ _ Hd). reflexivity.
Qed.

Lemma tick_timeLeft snap s :
  timeLeft (fst (exec (timerTick snap) s)) =
    if timeLeft s <=? 1 then 0 else timeLeft s - 1.
Proof.
  unfold exec, timerTick, gets, mbind, M_bind. cbn [fst snd].
  destruct (timeLeft s <=? 1); [|reflexivity].
  unfold setTimerActive, setTimeLeft, modify.
  destruct (handleFinishQuiz snap _) as [[u s1] e1]. reflexivity.
Qed.

Lemma step_timeLeft w e :
  0 <= timeLeft (current w) -> 0 <= timeLeft (current (step w e)).
Proof.
  intros H0. destruct e as [ | o | id a | | | | | | | ok | | err ];
    cbn [step current]; try rewrite current_commit.
  - exact H0.
  - destruct (fetch_result_cases o match o with
                            | Resolved data => setError None (setQuizData data (current w))
                            | Rejected e => setError (Some e) (current w)
                            end) as [[_ ->]|(d & -> & _ & ->)].
    + destruct o; exact H0.
    + cbn [timeLeft startedState]. lia.
  - rewrite exec_answer_select. exact H0.
  - destruct (Z.lt_ge_cases (currentQuestionIndex (current w))
                (questionsLength (current w) - 1)) as [H|H].
    + rewrite (exec_next_below _ _ H). exact H0.
    + rewrite (next_at_last _ H), finish_timeLeft. exact H0.
  - rewrite exec_previous. destruct (0 <? currentQuestionIndex (current w)); exact H0.
  - destruct (clickNext_cases (current w)) as [-> | ->]; [exact H0|].
    destruct (Z.lt_ge_cases (currentQuestionIndex (current w))
                (questionsLength (current w) - 1)) as [H|H].
    + rewrite (exec_next_below _ _ H). exact H0.
    + rewrite (next_at_last _ H), finish_timeLeft. exact H0.
  - destruct (clickPrevious_cases (current w)) as [-> | ->]; [exact H0|].
    rewrite exec_previous. destruct (0 <? currentQuestionIndex (current w)); exact H0.
  - rewrite finish_timeLeft. exact H0.
  - rewrite exec_reset. cbn [fst timeLeft resetState]. lia.
  - rewrite exec_mark. exact H0.
  - destruct (interval w) as [snap|]; [|exact H0].
    rewrite current_commit, tick_timeLeft.
    destruct (timeLeft (current w) <=? 1) eqn:E; [lia|]. apply Z.leb_gt in E. lia.
  - destruct (fetch_result_cases (Resolved (quizData (current w)))
                (setError (Some err) (current w))) as [[_ H]|(d & _ & _ & H)];
      rewrite H; [exact H0|cbn [timeLeft startedState]; lia].
Qed.

Lemma step_index_nonneg w e :
  0 <= currentQuestionIndex (current w) ->
  0 <= currentQuestionIndex (current (step w e)).
Proof.
  intros H0. destruct (isFetch e) eqn:Hf.
  - destruct e as [ | o | | | | | | | | | | err ]; try discriminate;
      cbn [step current]; rewrite current_commit.
    + destruct (fetch_result_cases o match o with
                            | Resolved data => setError None (setQuizData data (current w))
                            | Rejected e => setError (Some e) (current w)
                            end) as [[_ ->]|(d & -> & _ & ->)].
      * destruct o; exact H0.
      * cbn [currentQuestionIndex startedState]. lia.
    + destruct (fetch_result_cases (Resolved (quizData (current w)))
                  (setError (Some err) (current w))) as [[_ H]|(d & _ & _ & H)];
        rewrite H; [exact H0|cbn [currentQuestionIndex startedState]; lia].
  - destruct (step_indexStep w e Hf) as [_ Hi]. lia.
Qed.

(** X3: in every state the component reaches from its mount, by any
    events in any order, the time left and the question index are not
    negative, and the interval is live exactly when the timer flag is
    set with time left. *)
Theorem reachable_state_sound (es : list Event) :
  let w := run initialWorld es in
  0 <= timeLeft (current w) /\
  0 <= currentQuestionIndex (current w) /\
  wf w /\
  (is_Some (interval w) <->
   timerActive (current w) = true /\ 0 < timeLeft (current w)).
Proof.
  cbv zeta.
  assert (H : forall w, nonNegative (current w) -> nonNegative (current (run w es))).
  { induction es as [|e es IH]; intros w Hn; [exact Hn|].
    cbn [run fold_left]. apply IH. destruct Hn as [Ht Hi].
    split; [apply step_timeLeft, Ht|apply step_index_nonneg, Hi]. }
  destruct (H initialWorld) as [Ht Hi]; [split; cbn; lia|].
  pose proof (wf_run es initialWorld wf_initial) as Hw.
  split; [exact Ht|]. split; [exact Hi|]. split; [exact Hw|].
  unfold wf in Hw. destruct (interval (run initialWorld es)) as [snap|].
  - destruct Hw as (_ & Hp & Ha & He). split; [intros _; split; [exact Ha|lia]|eauto].
  - split; [intros [x Hx]; discriminate|].
    intros [Ha Hp]. rewrite Ha in Hw. apply Z.ltb_lt in Hp. rewrite Hp in Hw. discriminate.
Qed.

(** ** The countdown *)

Lemma exec_tick_running snap s :
  1 < timeLeft s ->
  exec (timerTick snap) s =
    exec (setTimeLeft (fun _ => timeLeft s - 1)) s.
Proof.
  intros H. unfold exec at 1. unfold timerTick, gets, mbind, M_bind.
  destruct (timeLeft s <=? 1) eqn:E; [apply Z.leb_le in E; lia|]. reflexivity.
Qed.

Lemma exec_tick_expiry snap s d :
  timeLeft s <= 1 -> quizData snap = Some d ->
  exec (timerTick snap) s =
    (fst (exec (setTimeLeft (fun _ => 0)) (finishedState (computeResults snap d) s)),
     [SubmitResults (computeResults snap d) (quizType s)]).
Proof.
  intros H Hd. unfold exec at 1. unfold timerTick, gets, mbind, M_bind.
  destruct (timeLeft s <=? 1) eqn:E; [|apply Z.leb_gt in E; lia].
  unfold setTimerActive, modify.
  pose proof (exec_finish_some snap (timerStopped s) d Hd) as Hf. unfold exec in Hf.
  change (mkState (quizType s) (questionCount s) (status s) (currentQuestionIndex s)
            (selectedAnswers s) (showResults s) (quizStarted s) (timeLeft s) false
            (quizResults s) (quizData s) (error s)) with (timerStopped s).
  destruct (handleFinishQuiz snap (timerStopped s)) as [[u s1] e1].
  injection Hf as -> ->. reflexivity.
Qed.

(** X1: a tick of the live interval with more than one second left takes
    exactly one second off, makes no call, changes nothing else, and the
    interval stays live, now belonging to the new render. *)
Theorem tick_counts_down (w : World) (snap : QuizState) :
  wf w ->
  interval w = Some snap ->
  1 < timeLeft (current w) ->
  let w' := step w Tick in
  timeLeft (current w') = timeLeft (current w) - 1 /\
  current w' = fst (exec (setTimeLeft (fun _ => timeLeft (current w) - 1)) (current w)) /\
  interval w' = Some (current w') /\
  calls w' = calls w /\
  timerActive (current w') = true /\
  selectedAnswers (current w') = selectedAnswers (current w) /\
  currentQuestionIndex (current w') = currentQuestionIndex (current w) /\
  showResults (current w') = showResults (current w) /\
  quizResults (current w') = quizResults (current w).
Proof.
  intros Hw Hi Ht w'. subst w'. cbn [step]. rewrite Hi.
  rewrite exec_tick_running by exact Ht.
  unfold wf in Hw. rewrite Hi in Hw. destruct Hw as (_ & _ & Ha & _).
  unfold commit. cbn [current interval calls exec setTimeLeft modify fst snd
    timeLeft timerActive selectedAnswers currentQuestionIndex showResults quizResults].
  rewrite app_nil_r. repeat split; try reflexivity; try exact Ha.
  unfold timerEffect. cbn [timerActive timeLeft].
  rewrite bool_decide_eq_false_2 by (intros [_ H]; lia).
  rewrite Ha. replace (0 <? timeLeft (current w) - 1) with true; [reflexivity|].
  symmetry. apply Z.ltb_lt. lia.
Qed.

Lemma tick_counts_down_witness :
  timeLeft (current (step started2 Tick)) = 59.
Proof.
  refine (proj1 (tick_counts_down started2 (current started2) _ _ _)).
  - vm_compute. repeat split; reflexivity.
  - reflexivity.
  - vm_compute. reflexivity.
Defined.

(** X10: the tick that finds at most one second left finishes the quiz
    with the answers of the render in which the interval was set, not
    those of the latest state: the result shown and submitted is
    computed from that render, and it is the result of a finish from
    the screen when no answer was selected since. *)
Theorem timer_expiry_uses_interval_render (w : World) (snap : QuizState)
    (d : QuizResponse.t) :
  interval w = Some snap ->
  timeLeft (current w) <= 1 ->
  quizData snap = Some d ->
  let w' := step w Tick in
  quizResults (current w') = computeResults snap d /\
  calls w' = calls w ++ [SubmitResults (computeResults snap d) (quizType (current w))] /\
  timeLeft (current w') = 0 /\
  timerActive (current w') = false /\
  showResults (current w') = true /\
  selectedAnswers (current w') = selectedAnswers (current w) /\
  (selectedAnswers snap = selectedAnswers (current w) ->
   quizData (current w) = Some d ->
   quizResults (current w') = quizResults (current (step w FinishQuiz))).
Proof.
  intros Hi Ht Hd w'. subst w'. cbn [step]. rewrite Hi.
  rewrite (exec_tick_expiry snap (current w) d Ht Hd).
  rewrite !current_commit, calls_commit. cbn [fst snd].
  repeat split; try reflexivity.
  intros Ha Hd'. rewrite (exec_finish_some _ _ d Hd'). cbn [fst quizResults finishedState
    exec setTimeLeft modify]. unfold computeResults. rewrite Ha. reflexivity.
Qed.

Lemma timer_expiry_uses_interval_render_witness :
  quizResults (current (step (run started1 (repeat Tick 29 ++ [AnswerSelect "w1" "a1"])) Tick))
  = computeResults (current (run started1 (repeat Tick 29)))
      (sampleResponse [sampleQuestion "w1" "a1"]).
Proof.
  refine (proj1 (timer_expiry_uses_interval_render
    (run started1 (repeat Tick 29 ++ [AnswerSelect "w1" "a1"]))
    (current (run started1 (repeat Tick 29)))
    (sampleResponse [sampleQuestion "w1" "a1"]) _ _ _)).
  - vm_compute. reflexivity.
  - vm_compute. discriminate.
  - vm_compute. reflexivity.
Defined.

Lemma submissions_app es1 es2 : submissions (es1 ++ es2) = submissions es1 ++ submissions es2.
Proof. apply List.filter_app. Qed.

(** X2: left alone with [t >= 1] seconds on a live interval and a
    question list loaded, the countdown shows [t - j] after [j < t]
    ticks without any call, and the [t]-th tick ends the quiz: time 0,
    timer off, interval cleared, results shown, one submission, one
    result entry per question. Ticks after that change nothing. *)
Theorem countdown_finishes_once (k : nat) : forall (w : World) (snap : QuizState)
    (d : QuizResponse.t),
  wf w ->
  interval w = Some snap ->
  quizData snap = Some d ->
  quizData (current w) = Some d ->
  timeLeft (current w) = Z.of_nat (S k) ->
  (forall j, (j <= k)%nat ->
     timeLeft (current (run w (repeat Tick j))) = Z.of_nat (S k) - Z.of_nat j /\
     calls (run w (repeat Tick j)) = calls w) /\
  let w' := run w (repeat Tick (S k)) in
  timeLeft (current w') = 0 /\
  timerActive (current w') = false /\
  interval w' = None /\
  showResults (current w') = true /\
  length (quizResults (current w')) = length (QuizResponse.questions d) /\
  length (submissions (calls w')) = S (length (submissions (calls w))) /\
  forall n, run w' (repeat Tick n) = w'.
Proof.
  induction k as [|k IH]; intros w snap d Hw Hi Hs Hd Ht.
  - split.
    { intros j Hj. assert (j = 0%nat) as -> by lia. cbn [repeat run fold_left].
      split; [lia|reflexivity]. }
    cbn [repeat run fold_left].
    assert (Hle : timeLeft (current w) <= 1) by lia.
    destruct (timer_expiry_uses_interval_render w snap d Hi Hle Hs)
      as (Hr & Hc & Ht0 & Ha & Hsh & _).
    assert (Hnone : interval (step w Tick) = None)
      by (apply inactive_no_interval; [apply wf_step, Hw|exact Ha]).
    split; [exact Ht0|]. split; [exact Ha|]. split; [exact Hnone|]. split; [exact Hsh|].
    split; [rewrite Hr; unfold computeResults; apply length_map|].
    split; [rewrite Hc, submissions_app, length_app; cbn; lia|].
    assert (Hfix : step (step w Tick) Tick = step w Tick)
      by (apply tick_inactive; [apply wf_step, Hw|exact Ha]).
    induction n as [|n IHn]; [reflexivity|].
    cbn [repeat]. unfold run in *. cbn [fold_left]. rewrite Hfix. exact IHn.
  - assert (H1 : 1 < timeLeft (current w)) by lia.
    destruct (tick_counts_down w snap Hw Hi H1) as (Ht1 & Hc1 & Hi1 & Hcalls & _).
    assert (Hd1 : quizData (current (step w Tick)) = Some d) by (rewrite Hc1; exact Hd).
    assert (Ht1' : timeLeft (current (step w Tick)) = Z.of_nat (S k)) by lia.
    destruct (IH (step w Tick) (current (step w Tick)) d (wf_step _ _ Hw) Hi1 Hd1 Hd1 Ht1')
      as [Hmid Hend].
    split.
    + intros j Hj. destruct j as [|j]; [cbn [repeat run fold_left]; split; [lia|reflexivity]|].
      cbn [repeat run fold_left]. destruct (Hmid j ltac:(lia)) as [Hm1 Hm2].
      unfold run in Hm1, Hm2. rewrite Hm1, Hm2. split; [lia|exact Hcalls].
    + cbn [repeat run fold_left]. cbv zeta in Hend. unfold run in Hend.
      rewrite Hcalls in Hend. exact Hend.
Qed.

Lemma countdown_finishes_once_witness :
  timeLeft (current (run started2 (repeat Tick 60))) = 0 /\
  length (submissions (calls (run started2 (repeat Tick 60)))) = 1%nat.
Proof.
  assert (Hw : wf started2) by (vm_compute; repeat split; reflexivity).
  pose proof (proj2 (countdown_finishes_once 59 started2 (current started2) twoQuestions
    Hw eq_refl eq_refl eq_refl eq_refl)) as H.
  cbv zeta in H. destruct H as (Ht & _ & _ & _ & _ & Hs & _).
  split; [exact Ht|exact Hs].
Defined.

(** ** Moving forth and back *)

Lemma movedTo_same s : movedTo (currentQuestionIndex s) s = s.
Proof. destruct s. reflexivity. Qed.

Lemma commit_moved w i :
  commit w (movedTo i (current w), []) =
    mkWorld (movedTo i (current w)) (interval w) (calls w) (pending w).
Proof.
  unfold commit. cbn [fst snd]. rewrite timerEffect_same by reflexivity.
  rewrite app_nil_r. reflexivity.
Qed.

(** X5: below the last question, Next followed by Previous gives back
    the very same state of the component, and above the first question
    so does Previous followed by Next; neither makes a call. At index 0
    Previous does nothing. *)
Theorem next_previous_round_trip (w : World) :
  (0 <= currentQuestionIndex (current w) < questionsLength (current w) - 1 ->
   run w [NextQuestion; PreviousQuestion] = w) /\
  (0 < currentQuestionIndex (current w) <= questionsLength (current w) - 1 ->
   run w [PreviousQuestion; NextQuestion] = w) /\
  (currentQuestionIndex (current w) <= 0 -> step w PreviousQuestion = w).
Proof.
  destruct w as [s i c p]. cbn [current].
  split; [|split].
  - intros [H0 Hl]. unfold run. cbn [fold_left step current].
    rewrite (exec_next_below s s Hl).
    rewrite (commit_moved (mkWorld s i c p)). cbn [current interval calls pending].
    rewrite exec_previous. cbn [currentQuestionIndex movedTo].
    replace (0 <? currentQuestionIndex s + 1) with true by (symmetry; apply Z.ltb_lt; lia).
    rewrite (commit_moved (mkWorld (movedTo (currentQuestionIndex s + 1) s) i c p)).
    cbn [current interval calls pending]. f_equal.
    replace (currentQuestionIndex s + 1 - 1) with (currentQuestionIndex s) by lia.
    destruct s. reflexivity.
  - intros [H0 Hl]. unfold run. cbn [fold_left step current].
    rewrite exec_previous.
    replace (0 <? currentQuestionIndex s) with true by (symmetry; apply Z.ltb_lt; lia).
    rewrite (commit_moved (mkWorld s i c p)). cbn [current interval calls pending].
    rewrite (exec_next_below (movedTo (currentQuestionIndex s - 1) s)
               (movedTo (currentQuestionIndex s - 1) s))
      by (unfold questionsLength in *; cbn [currentQuestionIndex movedTo quizData]; lia).
    rewrite (commit_moved (mkWorld (movedTo (currentQuestionIndex s - 1) s) i c p)).
    cbn [current interval calls pending currentQuestionIndex movedTo]. f_equal.
    replace (currentQuestionIndex s - 1 + 1) with (currentQuestionIndex s) by lia.
    destruct s. reflexivity.
  - intros H0. cbn [step current]. rewrite exec_previous.
    replace (0 <? currentQuestionIndex s) with false by (symmetry; apply Z.ltb_ge; lia).
    unfold commit. cbn [fst snd current interval calls pending].
    rewrite timerEffect_same by reflexivity. rewrite app_nil_r. reflexivity.
Qed.

Lemma next_previous_round_trip_witness :
  run started2 [NextQuestion; PreviousQuestion] = started2 /\
  step started2 PreviousQuestion = started2.
Proof.
  split.
  - refine (proj1 (next_previous_round_trip started2) _). vm_compute.
    split; [discriminate|reflexivity].
  - refine (proj2 (proj2 (next_previous_round_trip started2)) _). vm_compute. discriminate.
Defined.

(** ** Resetting *)

(** X6: a reset, from any state, clears index, answers, results and
    time, hides the results, leaves the session and stops the timer: the
    interval is cleared and ticks after it change nothing. It makes no
    call, keeps the chosen configuration and the fetched question list,
    and a second reset changes nothing. *)
Theorem reset_clears_and_stops_timer (w : World) :
  wf w ->
  let w' := step w ResetQuiz in
  current w' = resetState (current w) /\
  selectedAnswers (current w') = ∅ /\
  quizResults (current w') = [] /\
  currentQuestionIndex (current w') = 0 /\
  timeLeft (current w') = 0 /\
  quizStarted (current w') = false /\
  showResults (current w') = false /\
  interval w' = None /\
  (forall n, run w' (repeat Tick n) = w') /\
  calls w' = calls w /\
  (quizType (current w'), questionCount (current w'), status (current w')) =
    (quizType (current w), questionCount (current w), status (current w)) /\
  quizData (current w') = quizData (current w) /\
  step w' ResetQuiz = w'.
Proof.
  intros Hw w'.
  assert (Hc : current w' = resetState (current w)) by reflexivity.
  assert (Hi : interval w' = None).
  { apply inactive_no_interval; [apply wf_step, Hw|rewrite Hc; reflexivity]. }
  assert (Hcalls : calls w' = calls w).
  { subst w'. cbn [step]. rewrite calls_commit, exec_reset. apply app_nil_r. }
  split; [exact Hc|]. rewrite Hc.
  do 6 (split; [reflexivity|]). split; [exact Hi|].
  split.
  { induction n as [|n IHn]; [reflexivity|].
    cbn [repeat]. unfold run in *. cbn [fold_left]. cbn [step]. rewrite Hi. exact IHn. }
  split; [exact Hcalls|]. do 2 (split; [reflexivity|]).
  destruct w' as [s' i' c' p'] eqn:E. cbn [current interval] in *. subst s' i'.
  cbn [step current]. rewrite exec_reset. unfold commit.
  cbn [fst snd current interval calls pending].
  rewrite timerEffect_same by reflexivity. rewrite app_nil_r. reflexivity.
Qed.

Lemma reset_clears_and_stops_timer_witness :
  interval (step (run started2 [AnswerSelect "w1" "a1"; Tick]) ResetQuiz) = None /\
  selectedAnswers (current (step (run started2 [AnswerSelect "w1" "a1"; Tick]) ResetQuiz)) = ∅.
Proof.
  assert (Hw : wf (run started2 [AnswerSelect "w1" "a1"; Tick]))
    by (vm_compute; repeat split; reflexivity).
  pose proof (reset_clears_and_stops_timer _ Hw) as H. cbv zeta in H.
  destruct H as (_ & Ha & _ & _ & _ & _ & _ & Hi & _).
  split; [exact Hi|exact Ha].
Defined.

(** ** The answered counter *)

Lemma size_list_to_set_le (l : list string) :
  (size (list_to_set l : gset string) <= length l)%nat.
Proof.
  induction l as [|x l IH]; [rewrite list_to_set_nil, size_empty; cbn; lia|].
  rewrite list_to_set_cons, size_union_alt, size_singleton. cbn [length].
  assert (Hs : (size (list_to_set l ∖ {[x]} : gset string) <= size (list_to_set l : gset string))%nat)
    by (apply subseteq_size; intros y Hy; apply elem_of_difference in Hy; apply Hy).
  lia.
Qed.

Lemma answersWithin_count s :
  answersWithin s -> Z.of_nat (answeredCount s) <= questionsLength s.
Proof.
  intros Hin. unfold answeredCount, questionsLength.
  destruct (quizData s) as [d|] eqn:Hd.
  - apply inj_le. rewrite <- size_dom.
    rewrite <- (length_map QuizQuestion.wordId (QuizResponse.questions d)).
    etransitivity; [|apply size_list_to_set_le].
    apply subseteq_size. intros k Hk. apply elem_of_dom in Hk.
    destruct (Hin k Hk) as (d' & q & Hd' & Hq & Hid). rewrite Hd in Hd'. injection Hd' as <-.
    apply elem_of_list_to_set. rewrite <- Hid. apply list_elem_of_fmap. exists q. auto.
  - destruct (decide (selectedAnswers s = ∅)) as [->|Hne].
    + rewrite map_size_empty. lia.
    + apply map_choose in Hne. destruct Hne as (k & x & Hk).
      destruct (Hin k ltac:(eauto)) as (d' & q & Hd' & _). rewrite Hd in Hd'. discriminate.
Qed.

Lemma answersWithin_kept s s' :
  selectedAnswers s' = selectedAnswers s -> quizData s' = quizData s ->
  answersWithin s -> answersWithin s'.
Proof. intros Ha Hd H k Hk. rewrite Ha in Hk. rewrite Hd. exact (H k Hk). Qed.

Lemma tick_keeps_answers snap : keeps_answers (timerTick snap).
Proof.
  intros s. unfold exec, timerTick, gets, mbind, M_bind. cbn [fst snd].
  destruct (timeLeft s <=? 1); [|split; reflexivity].
  unfold setTimerActive, setTimeLeft, modify.
  pose proof (finish_keeps_answers snap (timerStopped s)) as H. unfold exec in H.
  change (mkState (quizType s) (questionCount s) (status s) (currentQuestionIndex s)
            (selectedAnswers s) (showResults s) (quizStarted s) (timeLeft s) false
            (quizResults s) (quizData s) (error s)) with (timerStopped s).
  destruct (handleFinishQuiz snap (timerStopped s)) as [[u s1] e1]. cbn [fst snd] in *.
  exact H.
Qed.

Lemma currentQuestion_elem s q :
  currentQuestion s = Some q ->
  exists d, quizData s = Some d /\ q ∈ QuizResponse.questions d.
Proof.
  unfold currentQuestion. destruct (quizData s) as [d|]; [|discriminate].
  destruct (currentQuestionIndex s <? 0); [discriminate|].
  intros H. exists d. split; [reflexivity|]. eapply list_elem_of_lookup_2, H.
Qed.

Lemma click_answersWithin w c :
  answersWithin (current w) -> answersWithin (current (click w c)).
Proof.
  intros Hin. destruct c as [i| | | | |ok|]; cbn [click].
  - rewrite current_commit. unfold clickOption.
    destruct (render (current w)) as [| |q b|hd pg] eqn:Hr; try exact Hin.
    destruct (QuizQuestion.options q !! i) as [o|]; [|exact Hin].
    rewrite exec_answer_select. cbn [fst]. intros k Hk.
    cbn [answeredState selectedAnswers quizData] in *.
    destruct (decide (QuizQuestion.wordId q = k)) as [Heq|Hne].
    + destruct (currentQuestion_elem _ _ (render_question _ _ _ Hr)) as (d & Hd & Hq).
      exists d, q. auto.
    + rewrite lookup_insert_ne in Hk by exact Hne. exact (Hin k Hk).
  - cbn [step]. rewrite current_commit.
    destruct (clickNext_keeps_answers (current w) (current w)) as [Ha Hd].
    exact (answersWithin_kept _ _ Ha Hd Hin).
  - cbn [step]. rewrite current_commit.
    destruct (clickPrevious_keeps_answers (current w) (current w)) as [Ha Hd].
    exact (answersWithin_kept _ _ Ha Hd Hin).
  - destruct (render (current w)); try exact Hin.
    cbn [step]. rewrite current_commit.
    destruct (finish_keeps_answers (current w) (current w)) as [Ha Hd].
    exact (answersWithin_kept _ _ Ha Hd Hin).
  - destruct (render (current w)); try exact Hin.
    cbn [step]. rewrite current_commit, exec_reset. cbn [fst].
    intros k [x Hk]. cbn [resetState selectedAnswers] in Hk.
    rewrite lookup_empty in Hk. discriminate.
  - rewrite current_commit. unfold clickMark.
    destruct (markButtonShown (current w)); [rewrite exec_mark|]; exact Hin.
  - cbn [step]. destruct (interval w) as [snap|]; [|exact Hin].
    rewrite current_commit.
    destruct (tick_keeps_answers snap (current w)) as [Ha Hd].
    exact (answersWithin_kept _ _ Ha Hd Hin).
Qed.

(** X7: driven by the buttons of the question screen and the interval,
    every recorded answer belongs to a question of the list, so the
    counter of answered questions never exceeds the number of
    questions. Both hold right after a successful start. *)
Theorem answered_count_bounded (w : World) (cs : list Click) :
  answersWithin (current w) ->
  let w' := clicks w cs in
  answersWithin (current w') /\
  Z.of_nat (answeredCount (current w')) <= questionsLength (current w').
Proof.
  intros Hin w'.
  assert (H : answersWithin (current w')).
  { subst w'. revert w Hin. induction cs as [|c cs IH]; intros w Hin; [exact Hin|].
    cbn [clicks fold_left]. apply IH, click_answersWithin, Hin. }
  split; [exact H|apply answersWithin_count, H].
Qed.

Lemma answered_count_bounded_witness :
  Z.of_nat (answeredCount (current (clicks started2
     [OptionClick 0; OptionClick 1; NextClick; OptionClick 1; OptionClick 7;
      PreviousClick; OptionClick 0; FinishClick; OptionClick 1])))
  <= questionsLength (current (clicks started2
     [OptionClick 0; OptionClick 1; NextClick; OptionClick 1; OptionClick 7;
      PreviousClick; OptionClick 0; FinishClick; OptionClick 1])).
Proof.
  refine (proj2 (answered_count_bounded started2 _ _)).
  intros k [x Hk]. vm_compute in Hk. discriminate.
Defined.

Example clicks_record_current_question :
  selectedAnswers (current (clicks started2
     [OptionClick 0; OptionClick 1; NextClick; OptionClick 0])) !! "w1" = Some "other" /\
  selectedAnswers (current (clicks started2
     [OptionClick 0; OptionClick 1; NextClick; OptionClick 0])) !! "w2" = Some "a2".
Proof. vm_compute. split; reflexivity. Qed.

(** ** Marking after finishing *)

Lemma incorrectWords_computed snap s d results :
  results = computeResults snap d ->
  quizResults s = results ->
  incorrectWords s = map QuizQuestion.wordId (missed (selectedAnswers snap) d).
Proof.
  intros -> Hr. unfold incorrectWords. rewrite Hr. unfold missed, computeResults.
  induction (QuizResponse.questions d) as [|q qs IH]; [reflexivity|].
  cbn [map List.filter resultOf QuizResult.correct].
  destruct (js_eq (selectedAnswers snap !! QuizQuestion.wordId q)
              (QuizQuestion.correctAnswer q)); cbn [negb map]; rewrite IH; reflexivity.
Qed.

(** X9: finishing from the screen and then marking sends one status
    update per question whose recorded answer is not its correct answer
    (unanswered ones included), in question order, and for no other
    word; when every question was answered correctly nothing is sent
    and "No words to mark for review!" is shown. *)
Theorem finish_then_mark_requests (w : World) (d : QuizResponse.t) (put_ok : nat -> bool) :
  quizData (current w) = Some d ->
  let answers := selectedAnswers (current w) in
  let w1 := step w FinishQuiz in
  let out := snd (exec (markWordsForReview put_ok (current w1)) (current w1)) in
  List.filter isPut out =
    map (fun q => AxiosPut ("/vocabulary/" +:+ QuizQuestion.wordId q) "reviewing")
      (missed answers d) /\
  (forall q, q ∈ missed answers d <->
     q ∈ QuizResponse.questions d /\
     answers !! QuizQuestion.wordId q <> Some (QuizQuestion.correctAnswer q)) /\
  (missed answers d = [] -> out = [ToastSuccess nothing_to_mark_message]).
Proof.
  intros Hd answers w1 out.
  assert (Hi : incorrectWords (current w1) = map QuizQuestion.wordId (missed answers d)).
  { apply (incorrectWords_computed (current w) (current w1) d (computeResults (current w) d));
      [reflexivity|].
    subst w1. cbn [step]. rewrite current_commit, (exec_finish_some _ _ d Hd). reflexivity. }
  destruct (review_marks_every_incorrect_word put_ok (current w1) (current w1))
    as (_ & Hput & Hnone & _).
  split.
  { subst out. rewrite exec_mark. cbn [snd]. unfold reviewRequests. rewrite Hi.
    destruct (missed answers d) as [|q qs]; [reflexivity|].
    cbn [map length Nat.eqb]. rewrite List.filter_app.
    change (putReviewing (QuizQuestion.wordId q) :: map putReviewing (map QuizQuestion.wordId qs))
      with (map putReviewing (map QuizQuestion.wordId (q :: qs))).
    rewrite filter_isPut_requests, map_map.
    destruct (forallb put_ok _); cbn [List.filter isPut]; rewrite app_nil_r; reflexivity. }
  split.
  { intros q. unfold missed. rewrite list_elem_of_In, filter_In, <- list_elem_of_In.
    rewrite negb_true_iff, <- not_true_iff_false, js_eq_true. reflexivity. }
  intros Hm. apply Hnone. rewrite Hi, Hm. reflexivity.
Qed.

Lemma finish_then_mark_requests_witness :
  List.filter isPut
    (snd (exec (markWordsForReview (fun _ => true)
                  (current (step (step started2 (AnswerSelect "w1" "a1")) FinishQuiz)))
               (current (step (step started2 (AnswerSelect "w1" "a1")) FinishQuiz))))
  = [AxiosPut "/vocabulary/w2" "reviewing"].
Proof.
  exact (proj1 (finish_then_mark_requests (step started2 (AnswerSelect "w1" "a1"))
                  twoQuestions (fun _ => true) eq_refl)).
Defined.

(** X8: the Mark button is rendered only over results with an incorrect
    entry. A click on it therefore always sends at least one status
    update, first of all calls, and reports either the count or the
    failure; the report "No words to mark for review!" of the handler
    cannot be reached from the button. When the button is not rendered
    a click does nothing. *)
Theorem mark_button_always_marks (put_ok : nat -> bool) (s : QuizState) :
  let out := snd (exec (clickMark put_ok s) s) in
  (markButtonShown s = true ->
     incorrectWords s <> [] /\
     (exists id rest, out = AxiosPut ("/vocabulary/" +:+ id) "reviewing" :: rest) /\
     List.filter isPut out = reviewRequests s /\
     List.filter isToast out =
       [if forallb put_ok (seq 0 (length (incorrectWords s)))
        then ToastSuccess (string_of_nat (length (incorrectWords s))
                             +:+ " words marked for review!")
        else ToastError mark_failed_message]) /\
  (markButtonShown s = false -> exec (clickMark put_ok s) s = (s, [])) /\
  ((forall r, r ∈ quizResults s -> QuizResult.correct r = true) ->
     markButtonShown s = false).
Proof.
  intros out. split; [|split].
  - intros Hshown.
    assert (Hne : incorrectWords s <> []).
    { unfold markButtonShown in Hshown. destruct (render s) as [| |q [|]|hd pg]; try discriminate.
      apply existsb_exists in Hshown. destruct Hshown as (r & Hr & Hc).
      unfold incorrectWords. intros Hnil. apply map_eq_nil in Hnil.
      assert (Hin : In r (List.filter (fun result => negb (QuizResult.correct result))
                           (quizResults s))) by (apply filter_In; auto).
      rewrite Hnil in Hin. exact Hin. }
    split; [exact Hne|].
    subst out. unfold clickMark. rewrite Hshown, exec_mark. cbn [snd].
    unfold reviewRequests. destruct (incorrectWords s) as [|id ids] eqn:E; [congruence|].
    cbn [length Nat.eqb map app]. split; [eauto|].
    change (putReviewing id :: map putReviewing ids ++ ?t)
      with (map putReviewing (id :: ids) ++ t).
    rewrite !List.filter_app, filter_isPut_requests, filter_isToast_requests.
    destruct (forallb put_ok _); cbn [List.filter isPut isToast app];
      rewrite ?app_nil_r; split; reflexivity.
  - intros Hno. unfold clickMark. rewrite Hno. reflexivity.
  - intros Hall. unfold markButtonShown. destruct (render s) as [| |q [|]|hd pg]; try reflexivity.
    apply not_true_is_false. intros Hex. apply existsb_exists in Hex.
    destruct Hex as (r & Hr & Hc). rewrite (Hall r) in Hc by (apply list_elem_of_In, Hr).
    discriminate.
Qed.

Lemma mark_button_always_marks_witness :
  exec (clickMark (fun _ => true)
          (current (run started2 [AnswerSelect "w1" "a1"; AnswerSelect "w2" "a2"; FinishQuiz])))
       (current (run started2 [AnswerSelect "w1" "a1"; AnswerSelect "w2" "a2"; FinishQuiz]))
  = (current (run started2 [AnswerSelect "w1" "a1"; AnswerSelect "w2" "a2"; FinishQuiz]), []).
Proof.
  refine (proj1 (proj2 (mark_button_always_marks (fun _ => true)
    (current (run started2 [AnswerSelect "w1" "a1"; AnswerSelect "w2" "a2"; FinishQuiz])))) _).
  vm_compute. reflexivity.
Defined.

(** ** The clock *)

Lemma string_app_cons x (a b : string) : String x a +:+ b = String x (a +:+ b).
Proof. reflexivity. Qed.

Lemma string_app_nil (b : string) : "" +:+ b = b.
Proof. reflexivity. Qed.

Lemma string_length_app (a b : string) :
  String.length (a +:+ b) = (String.length a + String.length b)%nat.
Proof.
  induction a as [|x a IH]; [reflexivity|].
  rewrite string_app_cons. cbn [String.length]. rewrite IH. reflexivity.
Qed.

Lemma string_app_inj_tail (a b c d : string) :
  a +:+ c = b +:+ d -> String.length c = String.length d -> a = b /\ c = d.
Proof.
  revert b. induction a as [|x a IH]; intros [|y b] H Hl;
    rewrite ?string_app_cons, ?string_app_nil in H.
  - auto.
  - rewrite H in Hl. cbn [String.length] in Hl. rewrite string_length_app in Hl. lia.
  - rewrite <- H in Hl. cbn [String.length] in Hl. rewrite string_length_app in Hl. lia.
  - injection H as -> H. destruct (IH b H Hl) as [-> ->]. auto.
Qed.

Lemma string_of_Z_inj (a b : Z) : string_of_Z a = string_of_Z b -> a = b.
Proof.
  assert (Hnn : forall z, Z.to_int z <> Decimal.Pos Decimal.Nil /\
                          Z.to_int z <> Decimal.Neg Decimal.Nil).
  { intros [|p|p]; cbn; split; try discriminate; intros [= H];
      exact (DecimalPos.Unsigned.to_uint_nonnil p H). }
  unfold string_of_Z. intros H. apply DecimalZ.to_int_inj.
  pose proof (NilZero.isi (Z.to_int a) (proj1 (Hnn a)) (proj2 (Hnn a))) as Ha.
  pose proof (NilZero.isi (Z.to_int b) (proj1 (Hnn b)) (proj2 (Hnn b))) as Hb.
  rewrite H in Ha. congruence.
Qed.

Lemma secondsField_length r : (r < 60)%nat -> String.length (secondsField r) = 2%nat.
Proof.
  intros Hr.
  assert (H : forallb (fun n => Nat.eqb (String.length (secondsField n)) 2) (seq 0 60) = true)
    by (vm_compute; reflexivity).
  rewrite forallb_forall in H. apply Nat.eqb_eq, H, in_seq. lia.
Qed.

Lemma secondsField_inj r1 r2 :
  (r1 < 60)%nat -> (r2 < 60)%nat -> secondsField r1 = secondsField r2 -> r1 = r2.
Proof.
  intros H1 H2 He.
  assert (H : forallb (fun n => forallb (fun m =>
                implb (String.eqb (secondsField n) (secondsField m)) (Nat.eqb n m))
              (seq 0 60)) (seq 0 60) = true) by (vm_compute; reflexivity).
  rewrite forallb_forall in H. specialize (H r1 ltac:(apply in_seq; lia)).
  rewrite forallb_forall in H. specialize (H r2 ltac:(apply in_seq; lia)).
  apply String.eqb_eq in He. rewrite He in H. apply Nat.eqb_eq. exact H.
Qed.

Lemma formatTime_fields (seconds : Z) :
  0 <= seconds ->
  formatTime seconds =
    string_of_Z (seconds / 60) +:+ ":" +:+ secondsField (Z.to_nat (seconds mod 60)) /\
  (Z.to_nat (seconds mod 60) < 60)%nat.
Proof.
  intros H0. pose proof (Z.mod_pos_bound seconds 60 ltac:(lia)) as Hm.
  split; [|lia]. unfold formatTime, secondsField.
  rewrite Z.rem_mod_nonneg by lia. rewrite Z2Nat.id by lia. reflexivity.
Qed.

(** X11: for a time that is not negative the clock shows the whole
    minutes, a colon and the seconds of the minute in exactly two
    characters, and two different times never show the same text. *)
Theorem formatTime_two_digits_injective (a b : Z) :
  0 <= a -> 0 <= b ->
  (exists field, formatTime a = string_of_Z (a / 60) +:+ ":" +:+ field /\
                 String.length field = 2%nat /\
                 field = padStart0 2 (string_of_Z (a mod 60))) /\
  (formatTime a = formatTime b -> a = b).
Proof.
  intros Ha Hb.
  destruct (formatTime_fields a Ha) as [Ea La].
  destruct (formatTime_fields b Hb) as [Eb Lb].
  pose proof (Z.mod_pos_bound a 60 ltac:(lia)) as Ma.
  pose proof (Z.mod_pos_bound b 60 ltac:(lia)) as Mb.
  split.
  - exists (secondsField (Z.to_nat (a mod 60))).
    split; [exact Ea|]. split; [apply secondsField_length, La|].
    unfold secondsField. rewrite Z2Nat.id by lia. reflexivity.
  - rewrite Ea, Eb. intros He.
    apply string_app_inj_tail in He.
    + destruct He as [Hm Hs]. apply string_of_Z_inj in Hm.
      injection Hs as Hs. apply secondsField_inj in Hs; [|exact La|exact Lb].
      apply Z2Nat.inj in Hs; [|lia|lia].
      rewrite (Z.div_mod a 60), (Z.div_mod b 60) by lia. rewrite Hm, Hs. reflexivity.
    + rewrite !string_length_app, !secondsField_length by assumption. reflexivity.
Qed.

Lemma formatTime_two_digits_injective_witness :
  exists field, formatTime 125 = string_of_Z (125 / 60) +:+ ":" +:+ field /\
                String.length field = 2%nat /\
                field = padStart0 2 (string_of_Z (125 mod 60)).
Proof.
  exact (proj1 (formatTime_two_digits_injective 125 0 ltac:(lia) ltac:(lia))).
Defined.

(** * The word page: selection and bulk request *)

Module AddWordFacts.
Import AddWord.
#[local] Set Warnings "-clear-no-such-hyp".
Section WithNumbers.
Context {number : Type}.
Implicit Types (s : State number) (e : Event number) (ws : list (ExtractedWord number)).

Lemma state_eta s :
  mkState (inputMethod s) (isProcessing s) (isFetchingWord s) (autoFillSuccess s)
    (extractedWords s) (selectedWords s) (textInput s) (difficultyFilter s)
    (isBulkAdding s) = s.
Proof. destruct s. reflexivity. Qed.

Lemma exec_toggle snap s w :
  exec (toggleWordSelection snap w) s =
    (mkState (inputMethod s) (isProcessing s) (isFetchingWord s) (autoFillSuccess s)
       (extractedWords s)
       (if bool_decide (w ∈ selectedWords snap)
        then selectedWords snap ∖ {[w]} else selectedWords snap ∪ {[w]})
       (textInput s) (difficultyFilter s) (isBulkAdding s), []).
Proof. reflexivity. Qed.

(** X12: toggling a word flips its membership in the selection and
    leaves every other word as it was; toggling it again gives back the
    state before, and neither makes a call. *)
Theorem toggle_flips_and_twice_restores s (w : string) :
  let s1 := fst (exec (toggleWordSelection s w) s) in
  let s2 := fst (exec (toggleWordSelection s1 w) s1) in
  (w ∈ selectedWords s1 <-> w ∉ selectedWords s) /\
  (forall v, v <> w -> (v ∈ selectedWords s1 <-> v ∈ selectedWords s)) /\
  s2 = s /\
  snd (exec (toggleWordSelection s w) s) = [] /\
  extractedWords s1 = extractedWords s.
Proof.
  cbv zeta. rewrite !exec_toggle. cbn [fst snd selectedWords extractedWords].
  destruct s as [im ip ifw afs ews sel ti df iba]. cbn [selectedWords].
  case_bool_decide as Hin.
  - split; [set_solver|]. split; [set_solver|]. split; [|auto].
    rewrite bool_decide_eq_false_2 by set_solver. f_equal.
    apply set_eq. intros v. destruct (decide (v = w)); set_solver.
  - split; [set_solver|]. split; [set_solver|]. split; [|auto].
    rewrite bool_decide_eq_true_2 by set_solver. f_equal. set_solver.
Qed.

Lemma filter_all_selected ws :
  List.filter (fun w => bool_decide (word w ∈ (list_to_set (map word ws) : gset string))) ws = ws.
Proof.
  assert (H : forall (sel : gset string) (l : list (ExtractedWord number)),
             (forall w, In w l -> word w ∈ sel) ->
             List.filter (fun w => bool_decide (word w ∈ sel)) l = l).
  { intros sel l. induction l as [|x l IH]; intros Hl; [reflexivity|]. cbn [List.filter].
    rewrite bool_decide_eq_true_2 by (apply Hl; left; reflexivity).
    rewrite IH; [reflexivity|]. intros w Hw. apply Hl. right. exact Hw. }
  apply H. intros w Hw. apply elem_of_list_to_set, list_elem_of_fmap.
  exists w. split; [reflexivity|apply list_elem_of_In, Hw].
Qed.

(** X13: with extracted words and no bulk request under way, Select All
    followed by Add Selected sends one bulk request with every
    extracted word, in extraction order, exactly what Add All Words
    sends, whatever the difficulty filter shows in the grid. *)
Theorem select_all_then_add_selected s :
  extractedWords s <> [] ->
  isBulkAdding s = false ->
  run (s, []) [SelectAll; AddSelected] =
    (mkState (inputMethod s) (isProcessing s) (isFetchingWord s) (autoFillSuccess s)
       (extractedWords s) (list_to_set (map word (extractedWords s)))
       (textInput s) (difficultyFilter s) true,
     [BulkCreate (extractedWords s)]) /\
  snd (run (s, []) [AddAll]) = [BulkCreate (extractedWords s)].
Proof.
  intros Hne Hb.
  assert (Hlen : Nat.eqb (length (extractedWords s)) 0 = false).
  { apply Nat.eqb_neq. destruct (extractedWords s); [congruence|discriminate]. }
  assert (Hsize : Nat.eqb (size (list_to_set (map word (extractedWords s)) : gset string)) 0
                  = false).
  { apply Nat.eqb_neq. intros H0. apply size_empty_inv in H0.
    destruct (extractedWords s) as [|x l]; [congruence|].
    assert (word x ∈ (list_to_set (map word (x :: l)) : gset string)) by set_solver.
    set_solver. }
  assert (H1 : step (s, []) SelectAll =
    (mkState (inputMethod s) (isProcessing s) (isFetchingWord s) (autoFillSuccess s)
       (extractedWords s) (list_to_set (map word (extractedWords s)))
       (textInput s) (difficultyFilter s) (isBulkAdding s), [])).
  { unfold step, handler, cardShown. cbn [fst snd]. rewrite Hlen. reflexivity. }
  split.
  - unfold run. cbn [fold_left]. rewrite H1.
    unfold step, handler, cardShown, addSelectedDisabled.
    cbn [fst snd extractedWords selectedWords isBulkAdding].
    rewrite Hlen, Hsize, Hb. cbn [negb orb andb].
    unfold addSelectedWords. cbn [extractedWords selectedWords].
    rewrite filter_all_selected, Hlen. reflexivity.
  - unfold run. cbn [fold_left]. unfold step, handler, cardShown, addAllDisabled.
    cbn [fst snd]. rewrite Hlen, Hb. cbn [negb andb]. unfold addAllWords.
    rewrite Hlen. reflexivity.
Qed.

End WithNumbers.

Lemma select_all_then_add_selected_witness :
  snd (run (sampleState, []) [SetFilter "difficult"; SelectAll; AddSelected]) =
    [BulkCreate (extractedWords sampleState)].
Proof.
  change (run (sampleState, []) [SetFilter "difficult"; SelectAll; AddSelected])
    with (run (fst (exec (setDifficultyFilter "difficult") sampleState), [])
            [SelectAll; AddSelected]).
  rewrite (proj1 (select_all_then_add_selected
                    (fst (exec (setDifficultyFilter "difficult") sampleState))
                    ltac:(discriminate) eq_refl)).
  reflexivity.
Defined.

Section Selection.
Context {number : Type}.
Implicit Types (s : State number) (e : Event number) (ws : list (ExtractedWord number)).

Lemma step_eq (p : State number * list (Call number)) e :
  step p e = (fst (exec (handler (fst p) e) (fst p)),
              snd p ++ snd (exec (handler (fst p) e) (fst p))).
Proof. unfold step. destruct (exec (handler (fst p) e) (fst p)). reflexivity. Qed.

Lemma filteredWords_subset s (w : ExtractedWord number) :
  w ∈ filteredWords s -> w ∈ extractedWords s.
Proof.
  unfold filteredWords. rewrite !list_elem_of_In, filter_In. intros [H _]. exact H.
Qed.

Lemma handler_selectionWithin s e :
  selectionWithin s -> selectionWithin (fst (exec (handler s e) s)).
Proof.
  intros Hin. destruct e as [i| | | | |f|fb o|n|err]; unfold handler.
  - destruct (cardShown s); [|exact Hin].
    destruct (filteredWords s !! i) as [w|] eqn:Hw; [|exact Hin].
    rewrite exec_toggle. cbn [fst]. intros v Hv. cbn [selectedWords extractedWords] in *.
    apply list_elem_of_lookup_2, filteredWords_subset in Hw.
    case_bool_decide.
    + apply Hin. set_solver.
    + apply elem_of_union in Hv. destruct Hv as [Hv|Hv]; [exact (Hin v Hv)|].
      apply elem_of_singleton in Hv. subst v. apply list_elem_of_fmap. eauto.
  - destruct (cardShown s); [|exact Hin]. intros v Hv.
    cbn [exec selectAllWords setSelectedWords fst selectedWords extractedWords] in *.
    apply elem_of_list_to_set in Hv. exact Hv.
  - destruct (cardShown s); [|exact Hin]. intros v Hv.
    cbn [exec deselectAllWords setSelectedWords fst selectedWords] in Hv. set_solver.
  - destruct (cardShown s && negb (addSelectedDisabled s)); [|exact Hin].
    unfold addSelectedWords. destruct (Nat.eqb _ 0); exact Hin.
  - destruct (cardShown s && negb (addAllDisabled s)); [|exact Hin].
    unfold addAllWords. destruct (Nat.eqb _ 0); exact Hin.
  - destruct (cardShown s); exact Hin.
  - destruct o as [ws|err]; [|exact Hin]. intros v Hv.
    cbn [exec extraction_resume fst selectedWords] in Hv.
    unfold mbind, A_bind, setExtractedWords, setSelectedWords, call, setIsProcessing in Hv.
    cbn [fst selectedWords] in Hv. set_solver.
  - intros v Hv. unfold exec, bulkCreate_onSuccess, mbind, A_bind, setExtractedWords,
      setSelectedWords, call in Hv. cbn [fst selectedWords] in Hv. set_solver.
  - exact Hin.
Qed.

Lemma selectionWithin_size s :
  selectionWithin s -> (size (selectedWords s) <= length (extractedWords s))%nat.
Proof.
  intros Hin. rewrite <- (length_map word (extractedWords s)).
  etransitivity; [|apply size_list_to_set_le].
  apply subseteq_size. intros v Hv. apply elem_of_list_to_set, Hin, Hv.
Qed.

(** X14: through the buttons of the card and the results of the
    requests, every selected word is the word of an extracted entry, so
    "Selected: k of n" never shows more selected than extracted. A click
    on Add Selected then either does nothing (button disabled or card
    absent) or sends a bulk request with at least one word: the error
    "Please select at least one word" of the handler is not reached. *)
Theorem selection_stays_within s (es : list (Event number)) :
  selectionWithin s ->
  let s' := fst (run (s, []) es) in
  selectionWithin s' /\
  (size (selectedWords s') <= length (extractedWords s'))%nat /\
  (exec (handler s' AddSelected) s' = (s', []) \/
   exists ws, ws <> [] /\
     ws = List.filter (fun w => bool_decide (word w ∈ selectedWords s')) (extractedWords s') /\
     exec (handler s' AddSelected) s' =
       (fst (exec (setIsBulkAdding true) s'), [BulkCreate ws])).
Proof.
  intros Hin s'.
  assert (H : selectionWithin s').
  { subst s'. generalize (@nil (Call number)). revert s Hin.
    induction es as [|e es IH]; intros s Hin cs; [exact Hin|].
    cbn [run fold_left]. rewrite step_eq. apply IH, handler_selectionWithin, Hin. }
  split; [exact H|]. split; [apply selectionWithin_size, H|].
  unfold handler. destruct (cardShown s' && negb (addSelectedDisabled s')) eqn:Hen; [|left; reflexivity].
  right. apply andb_prop in Hen. destruct Hen as [_ Hd].
  unfold addSelectedDisabled in Hd. apply negb_true_iff, orb_false_elim in Hd.
  destruct Hd as [Hsz _]. apply Nat.eqb_neq in Hsz.
  assert (Hpos : (0 < size (selectedWords s'))%nat) by lia.
  apply size_pos_elem_of in Hpos. destruct Hpos as [v Hv].
  pose proof (H v Hv) as Hw. apply list_elem_of_fmap in Hw. destruct Hw as (w & -> & Hw).
  eexists. split; [|split; [reflexivity|]].
  - intros Hnil.
    assert (Hf : In w (List.filter (fun w => bool_decide (word w ∈ selectedWords s'))
                         (extractedWords s'))).
    { apply filter_In. split; [apply list_elem_of_In, Hw|apply bool_decide_eq_true_2, Hv]. }
    rewrite Hnil in Hf. exact Hf.
  - unfold addSelectedWords.
    destruct (List.filter _ (extractedWords s')) as [|x l] eqn:E; [|reflexivity].
    exfalso.
    assert (Hf : In w (List.filter (fun w => bool_decide (word w ∈ selectedWords s'))
                         (extractedWords s'))).
    { apply filter_In. split; [apply list_elem_of_In, Hw|apply bool_decide_eq_true_2, Hv]. }
    rewrite E in Hf. exact Hf.
Qed.

Lemma handler_bulk s e :
  let r := exec (handler s e) s in
  (isBulkAdding (fst r) = isBulkAdding s /\ List.filter isBulkCreate (snd r) = []) \/
  (isBulkAdding s = false /\ isBulkAdding (fst r) = true /\
   exists ws, List.filter isBulkCreate (snd r) = [BulkCreate ws]).
Proof.
  cbv zeta. destruct e as [i| | | | |f|fb o|n|err]; unfold handler.
  - destruct (cardShown s); [|left; split; reflexivity].
    destruct (filteredWords s !! i); left; split; reflexivity.
  - destruct (cardShown s); left; split; reflexivity.
  - destruct (cardShown s); left; split; reflexivity.
  - destruct (cardShown s && negb (addSelectedDisabled s)) eqn:Hen; [|left; split; reflexivity].
    apply andb_prop in Hen. destruct Hen as [_ Hd].
    unfold addSelectedDisabled in Hd. apply negb_true_iff, orb_false_elim in Hd.
    destruct Hd as [_ Hb]. unfold addSelectedWords.
    destruct (Nat.eqb _ 0); [left; split; reflexivity|].
    right. split; [exact Hb|]. split; [reflexivity|]. eexists. reflexivity.
  - destruct (cardShown s && negb (addAllDisabled s)) eqn:Hen; [|left; split; reflexivity].
    apply andb_prop in Hen. destruct Hen as [_ Hd].
    unfold addAllDisabled in Hd. apply negb_true_iff in Hd. unfold addAllWords.
    destruct (Nat.eqb _ 0); [left; split; reflexivity|].
    right. split; [exact Hd|]. split; [reflexivity|]. eexists. reflexivity.
  - destruct (cardShown s); left; split; reflexivity.
  - destruct o; left; split; reflexivity.
  - left. split; reflexivity.
  - left. split; reflexivity.
Qed.

(** X15: no handler ever sets the bulk flag back. Once a bulk request
    is under way the flag stays set whatever follows, also the failure
    of the request, so both bulk buttons stay disabled and no second
    bulk request is sent: a visit of the page sends at most one. *)
Theorem bulk_request_at_most_once s (es : list (Event number)) :
  let p := run (s, []) es in
  (isBulkAdding s = true ->
     isBulkAdding (fst p) = true /\ List.filter isBulkCreate (snd p) = [] /\
     exec (handler (fst p) AddAll) (fst p) = (fst p, []) /\
     exec (handler (fst p) AddSelected) (fst p) = (fst p, [])) /\
  (length (List.filter isBulkCreate (snd p)) <= 1)%nat /\
  (List.filter isBulkCreate (snd p) <> [] -> isBulkAdding (fst p) = true).
Proof.
  cbv zeta.
  assert (Hlatch : forall es0 s0 (cs : list (Call number)),
            isBulkAdding s0 = true ->
            isBulkAdding (fst (run (s0, cs) es0)) = true /\
            List.filter isBulkCreate (snd (run (s0, cs) es0)) = List.filter isBulkCreate cs).
  { induction es0 as [|e es0 IH]; intros s0 cs Hb; [split; [exact Hb|reflexivity]|].
    cbn [run fold_left]. rewrite step_eq. cbn [fst snd].
    destruct (handler_bulk s0 e) as [[Hs Hc]|(Hf & _)]; [|congruence].
    destruct (IH (fst (exec (handler s0 e) s0)) (cs ++ snd (exec (handler s0 e) s0))
                ltac:(congruence)) as [H1 H2].
    unfold run in *. split; [exact H1|]. rewrite H2, List.filter_app, Hc. apply app_nil_r. }
  assert (Hmost : forall es0 s0 (cs : list (Call number)),
            List.filter isBulkCreate cs = [] ->
            (length (List.filter isBulkCreate (snd (run (s0, cs) es0))) <= 1)%nat /\
            (List.filter isBulkCreate (snd (run (s0, cs) es0)) <> [] ->
             isBulkAdding (fst (run (s0, cs) es0)) = true)).
  { induction es0 as [|e es0 IH]; intros s0 cs Hc.
    - cbn [run fold_left snd]. rewrite Hc. split; [cbn; lia|congruence].
    - cbn [run fold_left]. rewrite step_eq. cbn [fst snd].
      destruct (handler_bulk s0 e) as [[Hs Hn]|(Hf & Ht & ws & Hw)].
      + apply IH. rewrite List.filter_app, Hc, Hn. reflexivity.
      + destruct (Hlatch es0 (fst (exec (handler s0 e) s0))
                    (cs ++ snd (exec (handler s0 e) s0)) Ht) as [H1 H2].
        unfold run in *. rewrite H2, List.filter_app, Hc, Hw. cbn. split; [lia|auto]. }
  split; [|apply Hmost; reflexivity].
  intros Hb. destruct (Hlatch es s [] Hb) as [H1 H2].
  split; [exact H1|]. split; [exact H2|].
  unfold handler, addAllDisabled, addSelectedDisabled. rewrite H1.
  rewrite orb_true_r. cbn [negb]. rewrite !andb_false_r. split; reflexivity.
Qed.

End Selection.

Lemma selection_stays_within_witness :
  (size (selectedWords (fst (run (sampleState, [])
      [ToggleCard 0; SetFilter "difficult"; ToggleCard 0; ToggleCard 5; DeselectAll;
       ToggleCard 0])))
   <= length (extractedWords (fst (run (sampleState, [])
      [ToggleCard 0; SetFilter "difficult"; ToggleCard 0; ToggleCard 5; DeselectAll;
       ToggleCard 0]))))%nat.
Proof.
  refine (proj1 (proj2 (selection_stays_within sampleState _ _))).
  intros w Hw. vm_compute in Hw. set_solver.
Defined.

Lemma bulk_request_at_most_once_witness :
  isBulkAdding (fst (run (fst (run (sampleState, []) [AddAll]), [])
                       [BulkFailed networkError; SelectAll; AddSelected; AddAll])) = true /\
  List.filter isBulkCreate
    (snd (run (fst (run (sampleState, []) [AddAll]), [])
            [BulkFailed networkError; SelectAll; AddSelected; AddAll])) = [].
Proof.
  pose proof (proj1 (bulk_request_at_most_once (fst (run (sampleState, []) [AddAll]))
    [BulkFailed networkError; SelectAll; AddSelected; AddAll]) eq_refl) as H.
  destruct H as (H1 & H2 & _). split; [exact H1|exact H2].
Defined.

(** ** The synonym and antonym rows *)

Lemma imap_shift {A B} (f : nat -> A -> B) (l : list A) x :
  imap f (x :: l) = f 0%nat x :: imap (fun i => f (S i)) l.
Proof. reflexivity. Qed.

Lemma snd_imap_offset (m : nat) (l : list string) :
  map snd (imap (fun i x => (m + i, x)%nat) l) = l.
Proof.
  revert m. induction l as [|y l IH]; intros m; [reflexivity|].
  rewrite imap_shift. cbn [map snd]. f_equal.
  rewrite (imap_ext _ (fun i z => (S m + i, z)%nat)) by (intros; f_equal; lia).
  apply IH.
Qed.

Lemma filter_imap_below (k m : nat) (l : list string) :
  (k < m)%nat ->
  List.filter (fun p => negb (Nat.eqb (fst p) k)) (imap (fun i y => (m + i, y)%nat) l)
  = imap (fun i y => (m + i, y)%nat) l.
Proof.
  revert m. induction l as [|y l IH]; intros m Hm; [reflexivity|].
  rewrite imap_shift. cbn [List.filter fst].
  replace (Nat.eqb (m + 0) k) with false by (symmetry; apply Nat.eqb_neq; lia).
  cbn [negb]. f_equal.
  rewrite (imap_ext _ (fun i z => (S m + i, z)%nat)) by (intros; f_equal; lia).
  apply IH. lia.
Qed.

Lemma remove_from_offset (k index : nat) (l : list string) :
  map snd (List.filter (fun p => negb (Nat.eqb (fst p) (k + index)))
             (imap (fun i x => (k + i, x)%nat) l))
  = take index l ++ drop (S index) l.
Proof.
  revert k index. induction l as [|x l IH]; intros k index; [destruct index; reflexivity|].
  rewrite imap_shift. cbn [List.filter fst].
  rewrite (imap_ext _ (fun i y => (S k + i, y)%nat)) by (intros; f_equal; lia).
  destruct index as [|index].
  - rewrite Nat.eqb_refl. cbn [negb take drop app].
    rewrite Nat.add_0_r, filter_imap_below by lia. apply snd_imap_offset.
  - replace (Nat.eqb (k + 0) (k + S index)) with false by (symmetry; apply Nat.eqb_neq; lia).
    cbn [negb map snd take drop app]. f_equal.
    replace (k + S index)%nat with (S k + index)%nat by lia. apply IH.
Qed.

Lemma removeSynonym_take_drop (index : nat) (l : list string) :
  removeSynonym index l = take index l ++ drop (S index) l.
Proof. exact (remove_from_offset 0 index l). Qed.

(** X16: removing a synonym row takes out the entry at that index and
    keeps the others in order: the list gets one shorter, the entries
    before keep their place and those after move up by one. An index
    past the end removes nothing. Removing the row that Add Synonym has
    just appended gives back the list. The antonym rows behave the
    same. *)
Theorem synonym_rows (index : nat) (l : list string) :
  ((index < length l)%nat ->
     length (removeSynonym index l) = (length l - 1)%nat /\
     forall j, removeSynonym index l !! j =
               if Nat.ltb j index then l !! j else l !! S j) /\
  ((length l <= index)%nat -> removeSynonym index l = l) /\
  removeSynonym (length l) (addSynonym l) = l /\
  length (addSynonym l) = S (length l) /\
  addSynonym l !! length l = Some "" /\
  removeAntonym index l = removeSynonym index l /\
  addAntonym l = addSynonym l.
Proof.
  rewrite !removeSynonym_take_drop. split; [|split; [|split; [|split; [|split]]]].
  - intros Hi. split.
    + rewrite length_app, length_take, length_drop. lia.
    + intros j. destruct (Nat.ltb_spec j index) as [Hj|Hj].
      * rewrite lookup_app_l by (rewrite length_take; lia). apply lookup_take_lt. exact Hj.
      * rewrite lookup_app_r by (rewrite length_take; lia).
        rewrite length_take, lookup_drop. f_equal. lia.
  - intros Hi. rewrite take_ge by lia. rewrite drop_ge by lia. apply app_nil_r.
  - unfold addSynonym. rewrite take_app_length.
    rewrite drop_ge by (rewrite length_app; cbn; lia). apply app_nil_r.
  - unfold addSynonym. rewrite length_app. cbn. lia.
  - unfold addSynonym. rewrite lookup_app_r by lia. rewrite Nat.sub_diag. reflexivity.
  - split; reflexivity.
Qed.

Lemma synonym_rows_witness :
  removeSynonym 1 ["big"; "large"; "huge"] = ["big"; "huge"] /\
  removeSynonym 3 ["big"; "large"; "huge"] = ["big"; "large"; "huge"].
Proof.
  split.
  - apply list_eq. intros j.
    rewrite (proj2 (proj1 (synonym_rows 1 ["big"; "large"; "huge"]) ltac:(cbn; lia)) j).
    destruct j as [|[|[|j]]]; reflexivity.
  - exact (proj1 (proj2 (synonym_rows 3 ["big"; "large"; "huge"])) ltac:(cbn; lia)).
Defined.

End AddWordFacts.
